(** * Sales dashboard: data cleaning and KPI aggregation

    A shallow embedding of [dashboard.py]: the cleaning function
    [load_and_clean_data], the module-level KPI computations, the text
    summary [build_kpi_summary_text] and the sidebar city filter, with the
    properties of the pipeline proved over it.

    Conventions.
    - A Python [str] is a [string] whose characters are the code points
      U+0000 .. U+00FF.
    - A pandas float is a rational ([Q]); the float NaN of a scalar result is
      [None].  A sum is taken in the order of the rows; the rounding of
      float arithmetic and the infinities are not modelled.
    - A DataFrame is a list of column labels and a list of rows, a row
      mapping labels to cells.  Labels that coincide after canonicalisation
      are outside the model: a lookup takes the first match, where pandas
      selects a frame and the script raises.  [distinct_labels] says of a
      file that no two of its labels coincide.
    - A cell read from the file is its text or a number; a grouping or
      filter column (product, city) holds text or missing values
      ([text_keys]).
    - The pandas routines whose result the script does not determine
      ([to_datetime], [to_numeric], the default-kind [sort_values]) are the
      fields of the class [Pandas], with the laws pandas documents.
      [stable_pandas] reads ISO dates and plain decimals and sorts by
      insertion; [numpy_pandas] sorts as numpy's argsort of the default
      kind does. *)

From Stdlib Require Import List String Ascii Bool Arith ZArith NArith QArith Lia.
From Stdlib Require Import Permutation Sorted OrdersEx.
From Stdlib Require Import Qround Qabs DecimalPos.
Import ListNotations.

Local Open Scope string_scope.
Local Open Scope list_scope.

(** ** Python strings *)

Module PyStr.

Definition code (c : ascii) : N := N_of_ascii c.

(** [str.lower] on one code point of the Latin-1 range. *)
Definition lower_char (c : ascii) : ascii :=
  let n := code c in
  if ((65 <=? n) && (n <=? 90))%N then ascii_of_N (n + 32)
  else if ((192 <=? n) && (n <=? 222) && negb (n =? 215))%N
       then ascii_of_N (n + 32)
       else c.

(** The characters [str.strip()] removes. *)
Definition is_space (c : ascii) : bool :=
  let n := code c in
  (((9 <=? n) && (n <=? 13)) || ((28 <=? n) && (n <=? 32))
   || (n =? 133) || (n =? 160))%N.

Fixpoint map_chars (f : ascii -> ascii) (s : string) : string :=
  match s with
  | EmptyString => EmptyString
  | String c s' => String (f c) (map_chars f s')
  end.

Definition lower (s : string) : string := map_chars lower_char s.

Fixpoint lstrip (s : string) : string :=
  match s with
  | EmptyString => EmptyString
  | String c s' => if is_space c then lstrip s' else s
  end.

Fixpoint rstrip (s : string) : string :=
  match s with
  | EmptyString => EmptyString
  | String c s' =>
      match rstrip s' with
      | EmptyString => if is_space c then EmptyString else String c EmptyString
      | r => String c r
      end
  end.

Definition strip (s : string) : string := rstrip (lstrip s).

(** [s.replace(" ", "_")]: the pattern is one character long, so the
    replacement acts character by character. *)
Definition space_to_underscore (c : ascii) : ascii :=
  if Ascii.eqb c " " then "_"%char else c.

Definition replace_spaces (s : string) : string :=
  map_chars space_to_underscore s.

End PyStr.

(** Line 23: [c.lower().strip().replace(" ", "_")]. *)
Definition canon (c : string) : string :=
  PyStr.replace_spaces (PyStr.strip (PyStr.lower c)).

(** ** Cells, rows and frames *)

(** A pandas [Timestamp], as far as the script reads it (calendar fields). *)
Record Timestamp := mkTs { year : Z; month : Z; day : Z }.

(** The bounds of a nanosecond-resolution [Timestamp]. *)
Definition valid_timestamp (t : Timestamp) : Prop :=
  (1677 <= year t <= 2262)%Z /\ (1 <= month t <= 12)%Z /\ (1 <= day t <= 31)%Z.

(** One cell of a frame: a missing value (NaN, NaT), text, a number or a
    timestamp. *)
Inductive cell :=
| NaN
| Txt (s : string)
| Num (q : Q)
| Ts (t : Timestamp).

Definition Row := list (string * cell).

Record DataFrame := mkDF { columns : list string; rows : list Row }.

(** [row[c]]. *)
Fixpoint get (c : string) (r : Row) : cell :=
  match r with
  | [] => NaN
  | (k, v) :: r' => if String.eqb c k then v else get c r'
  end.

(** [row[c] = v]: an existing label keeps its place, a new one goes last. *)
Fixpoint set (c : string) (v : cell) (r : Row) : Row :=
  match r with
  | [] => [(c, v)]
  | (k, w) :: r' => if String.eqb c k then (k, v) :: r' else (k, w) :: set c v r'
  end.

(** [c in df.columns]. *)
Definition has_col (c : string) (df : DataFrame) : bool :=
  existsb (String.eqb c) (columns df).

(** [df.columns = labels]: the labels are replaced by position. *)
Definition set_columns (labels : list string) (df : DataFrame) : DataFrame :=
  {| columns := labels;
     rows := map (fun r => combine labels (map snd r)) (rows df) |}.

(** [df[c]] as the list of its cells. *)
Definition getcol (c : string) (df : DataFrame) : list cell :=
  map (get c) (rows df).

(** [df[c] = s]. *)
Definition setcol (c : string) (s : list cell) (df : DataFrame) : DataFrame :=
  {| columns := if has_col c df then columns df else columns df ++ [c];
     rows := map (fun rv => set c (snd rv) (fst rv)) (combine (rows df) s) |}.

Definition isna (c : cell) : bool :=
  match c with NaN => true | _ => false end.

(** [df.dropna(subset=labels)]. *)
Definition dropna (subset : list string) (df : DataFrame) : DataFrame :=
  {| columns := columns df;
     rows := filter (fun r => forallb (fun c => negb (isna (get c r))) subset)
                    (rows df) |}.

(** ** Outcomes of the script

    [Stop msg] is [st.error(msg); st.stop()]; [Raise e] is an uncaught
    Python exception. *)
Inductive outcome (A : Type) :=
| Ok (a : A)
| Stop (msg : string)
| Raise (exn : string).

Arguments Ok {A} a.
Arguments Stop {A} msg.
Arguments Raise {A} exn.

Definition bind {A B : Type} (m : outcome A) (k : A -> outcome B) : outcome B :=
  match m with
  | Ok a => k a
  | Stop msg => Stop msg
  | Raise e => Raise e
  end.

Notation "x <- m ;; k" := (bind m (fun x => k))
  (at level 61, m at next level, right associativity).

(** ** The pandas routines the script calls *)

(** Descending by value: the order [sort_values(ascending=False)] promises. *)
Definition desc_by_value (a b : string * Q) : Prop := (snd b <= snd a)%Q.

Class Pandas := {
  (** [pd.to_datetime(s, errors="coerce")]: one result per cell, [None]
      for NaT. *)
  to_datetime : list cell -> list (option Timestamp);
  to_datetime_length : forall s, List.length (to_datetime s) = List.length s;
  to_datetime_valid :
    forall s t, In (Some t) (to_datetime s) -> valid_timestamp t;
  (** [pd.to_numeric(s, errors="coerce")]: [None] for NaN. *)
  to_numeric : list cell -> list (option Q);
  to_numeric_length : forall s, List.length (to_numeric s) = List.length s;
  (** [Series.sort_values(ascending=False)] with the default [kind]
      ("quicksort", which is not a stable kind): some rearrangement of the
      entries in descending order of value. *)
  sort_values_desc : list (string * Q) -> list (string * Q);
  sort_values_desc_perm : forall l, Permutation (sort_values_desc l) l;
  sort_values_desc_sorted :
    forall l, StronglySorted desc_by_value (sort_values_desc l)
}.

Definition of_datetime (o : option Timestamp) : cell :=
  match o with Some t => Ts t | None => NaN end.

Definition of_numeric (o : option Q) : cell :=
  match o with Some q => Num q | None => NaN end.

(** ** Period keys: [dt.to_period("M").astype(str)] *)

Definition digit (n : Z) : ascii := ascii_of_N (Z.to_N (48 + n mod 10)).

Definition pad2 (n : Z) : string :=
  String (digit (n / 10)) (String (digit n) EmptyString).

Definition pad4 (n : Z) : string :=
  String (digit (n / 1000)) (String (digit (n / 100)) (pad2 n)).

Definition period_str (t : Timestamp) : string :=
  pad4 (year t) ++ "-" ++ pad2 (month t).

Definition to_period_M_str (c : cell) : cell :=
  match c with
  | Ts t => Txt (period_str t)
  | _ => NaN
  end.

(** ** [load_and_clean_data] (lines 19-56), applied to the frame that
    [pd.read_csv(path)] returned *)

Definition convert_numeric `{Pandas} (df : DataFrame) (col : string) : DataFrame :=
  if has_col col df
  then setcol col (map of_numeric (to_numeric (getcol col df))) df
  else df.

Definition load_and_clean_data `{Pandas} (raw : DataFrame) : outcome DataFrame :=
  let df := set_columns (map canon (columns raw)) raw in
  df <- (if has_col "date" df
         then Ok (setcol "date" (map of_datetime (to_datetime (getcol "date" df))) df)
         else Stop "No 'date' column found in the dataset.") ;;
  let df := fold_left convert_numeric ["total_items"; "total_cost"] df in
  df <- (if has_col "total_items" df
         then Ok (setcol "quantity" (getcol "total_items" df) df)
         else Stop "No 'total_items' column found to create quantity.") ;;
  df <- (if has_col "total_cost" df
         then Ok (setcol "revenue" (getcol "total_cost" df) df)
         else Stop "No 'total_cost' column found to create revenue.") ;;
  let df := dropna ["date"; "quantity"; "revenue"] df in
  Ok (setcol "year_month" (map to_period_M_str (getcol "date" df)) df).

(** ** Series reductions (lines 62-65) *)

(** [Series.sum()]: missing values are skipped, an empty sum is 0. *)
Definition series_sum (s : list cell) : Q :=
  fold_left (fun acc c => match c with Num q => acc + q | _ => acc end)%Q s 0%Q.

(** [Series.count()]: the number of values that are not missing. *)
Definition series_count (s : list cell) : nat :=
  List.length (filter (fun c => negb (isna c)) s).

(** [Series.mean()]: the sum over the count of the values present; NaN
    ([None]) when there is none.  No division is evaluated in that case. *)
Definition series_mean (s : list cell) : option Q :=
  match series_count s with
  | O => None
  | S n => Some (series_sum s / inject_Z (Z.of_nat (S n)))%Q
  end.

(** ** Grouped sums (lines 67-87) *)

(** A grouping column holds text; a cell of another kind is a missing key,
    and [groupby] leaves rows with a missing key out. *)
Definition group_key (c : cell) : option string :=
  match c with Txt s => Some s | _ => None end.

Definition as_float (c : cell) : Q :=
  match c with Num q => q | _ => 0%Q end.

(** One more value into a table of sums kept in ascending order of key
    ([groupby] sorts the group keys). *)
Fixpoint add_to_group (k : string) (v : Q) (acc : list (string * Q))
  : list (string * Q) :=
  match acc with
  | [] => [(k, v)]
  | (k', s) :: acc' =>
      match String_as_OT.compare k k' with
      | Eq => (k', (s + v)%Q) :: acc'
      | Lt => (k, v) :: acc
      | Gt => (k', s) :: add_to_group k v acc'
      end
  end.

Definition group_step (key val : string) (acc : list (string * Q)) (r : Row)
  : list (string * Q) :=
  match group_key (get key r) with
  | Some k => add_to_group k (as_float (get val r)) acc
  | None => acc
  end.

(** [df.groupby(key)[val].sum()]; a label that is not a column is a
    [KeyError]. *)
Definition groupby_sum (key val : string) (df : DataFrame)
  : outcome (list (string * Q)) :=
  if has_col key df then
    if has_col val df then Ok (fold_left (group_step key val) (rows df) [])
    else Raise ("KeyError: 'Column not found: " ++ val ++ "'")
  else Raise ("KeyError: '" ++ key ++ "'").

Fixpoint insert_by_key (e : string * Q) (l : list (string * Q))
  : list (string * Q) :=
  match l with
  | [] => [e]
  | x :: l' =>
      match String_as_OT.compare (fst e) (fst x) with
      | Gt => x :: insert_by_key e l'
      | _ => e :: l
      end
  end.

(** [Series.sort_index()] on a string index. *)
Definition sort_index (l : list (string * Q)) : list (string * Q) :=
  fold_right insert_by_key [] l.

(** [.head(n)]. *)
Definition head (n : nat) (l : list (string * Q)) : list (string * Q) :=
  firstn n l.

(** [df.groupby(key)["revenue"].sum().sort_values(ascending=False).head(5)]. *)
Definition top5_by `{Pandas} (key : string) (df : DataFrame)
  : outcome (list (string * Q)) :=
  g <- groupby_sum key "revenue" df ;;
  Ok (head 5 (sort_values_desc g)).

(** [df.groupby("year_month")["revenue"].sum().sort_index()]. *)
Definition monthly (df : DataFrame) : outcome (list (string * Q)) :=
  g <- groupby_sum "year_month" "revenue" df ;;
  Ok (sort_index g).

(** ** The KPI summary (lines 62-87) *)

Record KPIs := mkKPIs {
  total_revenue : Q;
  total_transactions : nat;
  avg_order_value : option Q;
  total_items_sold : Q;
  revenue_by_product : list (string * Q);
  revenue_by_city : option (list (string * Q));
  revenue_by_month : list (string * Q)
}.

Definition compute_kpis `{Pandas} (df_clean : DataFrame) : outcome KPIs :=
  let total_revenue := series_sum (getcol "revenue" df_clean) in
  let total_transactions := List.length (rows df_clean) in
  let avg_order_value := series_mean (getcol "revenue" df_clean) in
  let total_items_sold := series_sum (getcol "quantity" df_clean) in
  revenue_by_product <- top5_by "product" df_clean ;;
  revenue_by_city <- (if has_col "city" df_clean
                      then c <- top5_by "city" df_clean ;; Ok (Some c)
                      else Ok None) ;;
  revenue_by_month <- monthly df_clean ;;
  Ok (mkKPIs total_revenue total_transactions avg_order_value total_items_sold
             revenue_by_product revenue_by_city revenue_by_month).

(** ** Number formatting (the format specs of lines 94-110) *)

Definition newline : string := String (ascii_of_N 10) EmptyString.

(** Rounding to the nearest integer, an exact tie going to the even one. *)
Definition round_half_even (q : Q) : Z :=
  let f := Qfloor q in
  match Qcompare (q - inject_Z f) (1 # 2) with
  | Lt => f
  | Gt => (f + 1)%Z
  | Eq => if Z.even f then f else (f + 1)%Z
  end.

Fixpoint uint_digits (d : Decimal.uint) : string :=
  match d with
  | Decimal.Nil => EmptyString
  | Decimal.D0 d' => String "0" (uint_digits d')
  | Decimal.D1 d' => String "1" (uint_digits d')
  | Decimal.D2 d' => String "2" (uint_digits d')
  | Decimal.D3 d' => String "3" (uint_digits d')
  | Decimal.D4 d' => String "4" (uint_digits d')
  | Decimal.D5 d' => String "5" (uint_digits d')
  | Decimal.D6 d' => String "6" (uint_digits d')
  | Decimal.D7 d' => String "7" (uint_digits d')
  | Decimal.D8 d' => String "8" (uint_digits d')
  | Decimal.D9 d' => String "9" (uint_digits d')
  end.

(** [str(n)] for an integer [n >= 0]. *)
Definition decimal (n : Z) : string := uint_digits (N.to_uint (Z.to_N n)).

(** A comma after every third digit, counted from the right, on the
    reversed digits. *)
Fixpoint group3_rev (l : list ascii) : list ascii :=
  match l with
  | a :: b :: c :: ((_ :: _) as more) =>
      a :: b :: c :: ","%char :: group3_rev more
  | _ => l
  end.

(** The [,] option of a format spec. *)
Definition group3 (s : string) : string :=
  string_of_list_ascii (rev (group3_rev (rev (list_ascii_of_string s)))).

Definition sign_of (q : Q) : string :=
  if Qle_bool 0 q then "" else "-".

(** [f"{q:,.2f}"]. *)
Definition format_2f (q : Q) : string :=
  let n := round_half_even (Qabs q * 100) in
  sign_of q ++ group3 (decimal (n / 100)) ++ "." ++ pad2 (n mod 100).

(** [f"{q:,.0f}"]. *)
Definition format_0f (q : Q) : string :=
  sign_of q ++ group3 (decimal (round_half_even (Qabs q))).

(** [f"{x:,.2f}"] for a float that may be NaN. *)
Definition format_float_2f (x : option Q) : string :=
  match x with
  | Some q => format_2f q
  | None => "nan"
  end.

(** ** [build_kpi_summary_text] (lines 91-112) *)

Definition item_line (e : string * Q) : string :=
  "- " ++ fst e ++ ": $" ++ format_2f (snd e).

Definition summary_lines (k : KPIs) : list string :=
  ["=== High-Level Sales Summary ===";
   ("Total revenue: $" ++ format_2f (total_revenue k))%string;
   ("Total transactions: " ++ decimal (Z.of_nat (total_transactions k)))%string;
   ("Average order value: $" ++ format_float_2f (avg_order_value k))%string;
   ("Total items sold: " ++ format_0f (total_items_sold k))%string]
  ++ [(newline ++ "=== Top 5 Products by Revenue ===")%string]
  ++ map item_line (revenue_by_product k)
  ++ match revenue_by_city k with
     | Some by_city =>
         [(newline ++ "=== Top 5 Cities by Revenue ===")%string]
         ++ map item_line by_city
     | None => []
     end
  ++ [(newline ++ "=== Monthly Revenue (chronological) ===")%string]
  ++ map item_line (revenue_by_month k).

Definition build_kpi_summary_text (k : KPIs) : string :=
  String.concat newline (summary_lines k).

(** ** The sidebar filter (lines 124-149) *)

(** Python [==] on the values of a cell; NaN equals nothing. *)
Definition py_eq (a b : cell) : bool :=
  match a, b with
  | Txt s, Txt s' => String.eqb s s'
  | Num q, Num q' => Qeq_bool q q'
  | Ts t, Ts t' =>
      ((year t =? year t') && (month t =? month t') && (day t =? day t'))%Z
  | _, _ => false
  end.

(** The identity [Series.unique()] uses: missing values count as one. *)
Definition same_value (a b : cell) : bool :=
  py_eq a b || (isna a && isna b).

(** [Series.unique().tolist()]: the values in order of first appearance. *)
Fixpoint unique_from (seen : list cell) (s : list cell) : list cell :=
  match s with
  | [] => []
  | c :: s' =>
      if existsb (same_value c) seen then unique_from seen s'
      else c :: unique_from (c :: seen) s'
  end.

Definition unique (s : list cell) : list cell := unique_from [] s.

Fixpoint insert_str (x : string) (l : list string) : list string :=
  match l with
  | [] => [x]
  | y :: l' =>
      match String_as_OT.compare x y with
      | Gt => y :: insert_str x l'
      | _ => x :: l
      end
  end.

Definition texts_of (l : list cell) : list string :=
  flat_map (fun c => match c with Txt s => [s] | _ => [] end) l.

Definition is_text (c : cell) : bool :=
  match c with Txt _ => true | _ => false end.

(** [sorted(values)] on the distinct values of a text column: text sorts
    by code point; one value alone needs no comparison; text next to a
    value that is not text (the float NaN of a missing cell) is a
    [TypeError]. *)
Definition py_sorted (l : list cell) : outcome (list cell) :=
  if forallb is_text l
  then Ok (map Txt (fold_right insert_str [] (texts_of l)))
  else if (List.length l <=? 1)%nat then Ok l
  else Raise "TypeError: '<' not supported between instances of 'float' and 'str'".

Definition All : cell := Txt "All".

(** The options of [st.selectbox("City", cities)] (lines 126-130). *)
Definition city_options (df_clean : DataFrame) : outcome (list cell) :=
  if has_col "city" df_clean
  then cs <- py_sorted (unique (getcol "city" df_clean)) ;; Ok (All :: cs)
  else Ok [All].

(** [df[df["city"] == selected_city]]. *)
Definition filter_city (selected_city : cell) (df : DataFrame) : DataFrame :=
  {| columns := columns df;
     rows := filter (fun r => py_eq (get "city" r) selected_city) (rows df) |}.

(** Lines 132-135. *)
Definition apply_filter (selected_city : cell) (df_clean : DataFrame)
  : DataFrame :=
  if negb (py_eq selected_city All) && has_col "city" df_clean
  then filter_city selected_city df_clean
  else df_clean.

(** ** The script, up to the layout (lines 59-149)

    [choice] is the position the user picks in the select box; the box
    returns the option at that position. *)

Record Dashboard := mkDashboard {
  df_clean : DataFrame;
  kpis : KPIs;
  kpi_summary_text : string;
  selected_city : cell;
  df_filtered : DataFrame;
  filtered_revenue_by_month : list (string * Q);
  filtered_revenue_by_product : list (string * Q)
}.

Definition script `{Pandas} (raw : DataFrame) (choice : nat) : outcome Dashboard :=
  df_clean <- load_and_clean_data raw ;;
  kpis <- compute_kpis df_clean ;;
  let kpi_summary_text := build_kpi_summary_text kpis in
  cities <- city_options df_clean ;;
  let selected_city := nth choice cities All in
  let df_filtered := apply_filter selected_city df_clean in
  filtered_revenue_by_month <- monthly df_filtered ;;
  filtered_revenue_by_product <- top5_by "product" df_filtered ;;
  Ok (mkDashboard df_clean kpis kpi_summary_text selected_city df_filtered
                  filtered_revenue_by_month filtered_revenue_by_product).

(** What the page shows once a city is selected: the KPI row (lines
    155-158) and the city chart (lines 194-205) from the unfiltered
    values, the two charts titled with the city (lines 165-185) from the
    filtered ones. *)
Definition shown (d : Dashboard) : KPIs :=
  mkKPIs (total_revenue (kpis d)) (total_transactions (kpis d))
         (avg_order_value (kpis d)) (total_items_sold (kpis d))
         (filtered_revenue_by_product d) (revenue_by_city (kpis d))
         (filtered_revenue_by_month d).

(** ** The pipeline row by row

    The statements below compare the frame that [load_and_clean_data]
    returns with the normaliser of the specification, which works one
    record at a time. *)

Module Spec.

(** A transaction of the specification (section 3). *)
Record Transaction := mkTransaction {
  date : Timestamp;
  quantity : Q;
  revenue : Q;
  product : cell;
  city : cell;
  period_key : string
}.

(** Steps 4 to 8 of the normaliser on one record: a transaction when the
    date, the item count and the cost all parsed, nothing otherwise. *)
Definition normalize_row (r : Row) (d : option Timestamp) (q c : option Q)
  : option Transaction :=
  match d, q, c with
  | Some d, Some q, Some c =>
      Some (mkTransaction d q c (get "product" r) (get "city" r) (period_str d))
  | _, _, _ => None
  end.

Fixpoint normalize_rows (rs : list Row) (ds : list (option Timestamp))
  (qs cs : list (option Q)) : list Transaction :=
  match rs, ds, qs, cs with
  | r :: rs', d :: ds', q :: qs', c :: cs' =>
      match normalize_row r d q c with
      | Some t => t :: normalize_rows rs' ds' qs' cs'
      | None => normalize_rows rs' ds' qs' cs'
      end
  | _, _, _, _ => []
  end.

End Spec.

(** The frame under its canonical labels (line 23). *)
Definition relabelled (raw : DataFrame) : DataFrame :=
  set_columns (map canon (columns raw)) raw.

(** The transactions the specification's normaliser builds from a frame
    whose three required columns are present. *)
Definition normalize `{Pandas} (raw : DataFrame) : list Spec.Transaction :=
  let df := relabelled raw in
  Spec.normalize_rows (rows df)
    (to_datetime (getcol "date" df))
    (to_numeric (getcol "total_items" df))
    (to_numeric (getcol "total_cost" df)).

(** A row of the cleaned frame read as a transaction. *)
Definition transaction_of (r : Row) : option Spec.Transaction :=
  match get "date" r, get "quantity" r, get "revenue" r, get "year_month" r with
  | Ts d, Num q, Num c, Txt p =>
      Some (Spec.mkTransaction d q c (get "product" r) (get "city" r) p)
  | _, _, _, _ => None
  end.

(** The canonical header has the three required labels. *)
Definition required_present (raw : DataFrame) : Prop :=
  In "date" (map canon (columns raw))
  /\ In "total_items" (map canon (columns raw))
  /\ In "total_cost" (map canon (columns raw)).

(** The message of the first check that fails (lines 29, 41, 47). *)
Definition missing_message (raw : DataFrame) : option string :=
  let df := relabelled raw in
  if negb (has_col "date" df)
  then Some "No 'date' column found in the dataset."
  else if negb (has_col "total_items" df)
  then Some "No 'total_items' column found to create quantity."
  else if negb (has_col "total_cost" df)
  then Some "No 'total_cost' column found to create revenue."
  else None.

(** Sums over transactions, as the specification writes them. *)
Definition Qsum (l : list Q) : Q := fold_right Qplus 0%Q l.

Definition revenue_of (r : Row) : Q := as_float (get "revenue" r).
Definition quantity_of (r : Row) : Q := as_float (get "quantity" r).

(** The rows of a frame whose key column holds the text [k]. *)
Definition in_group (key k : string) (r : Row) : bool :=
  match group_key (get key r) with
  | Some k' => String.eqb k' k
  | None => false
  end.

(** The sum of revenue over the rows of one group. *)
Definition group_total (key k : string) (rs : list Row) : Q :=
  Qsum (map revenue_of (filter (in_group key k) rs)).


(** The converted columns, and the frame [load_and_clean_data] returns
    when no check stops it. *)
Definition date_cells `{Pandas} (raw : DataFrame) : list cell :=
  map of_datetime (to_datetime (getcol "date" (relabelled raw))).

Definition items_cells `{Pandas} (raw : DataFrame) : list cell :=
  map of_numeric (to_numeric (getcol "total_items" (relabelled raw))).

Definition cost_cells `{Pandas} (raw : DataFrame) : list cell :=
  map of_numeric (to_numeric (getcol "total_cost" (relabelled raw))).

Definition converted `{Pandas} (raw : DataFrame) : DataFrame :=
  setcol "revenue" (cost_cells raw)
    (setcol "quantity" (items_cells raw)
       (setcol "total_cost" (cost_cells raw)
          (setcol "total_items" (items_cells raw)
             (setcol "date" (date_cells raw) (relabelled raw))))).

Definition add_year_month (df : DataFrame) : DataFrame :=
  setcol "year_month" (map to_period_M_str (getcol "date" df)) df.

Definition cleaned `{Pandas} (raw : DataFrame) : DataFrame :=
  add_year_month (dropna ["date"; "quantity"; "revenue"] (converted raw)).


(** One converted row, and the test of [dropna] on it. *)
Definition convert_row (r : Row) (d : option Timestamp) (q c : option Q) : Row :=
  set "revenue" (of_numeric c)
    (set "quantity" (of_numeric q)
       (set "total_cost" (of_numeric c)
          (set "total_items" (of_numeric q)
             (set "date" (of_datetime d) r)))).

Definition complete (r : Row) : bool :=
  forallb (fun c => negb (isna (get c r))) ["date"; "quantity"; "revenue"].

Definition with_year_month (r : Row) : Row :=
  set "year_month" (to_period_M_str (get "date" r)) r.


(** Ascending order of keys, strictly. *)
Definition key_lt (a b : string * Q) : Prop :=
  String_as_OT.lt (fst a) (fst b).

(** The entry of a table under a key, 0 when there is none. *)
Fixpoint total_of (k : string) (acc : list (string * Q)) : Q :=
  match acc with
  | [] => 0%Q
  | (k', s) :: acc' => if String.eqb k k' then s else total_of k acc'
  end.


(** ** An insertion sort

    Descending order of value by insertion.  With [ties_first] an entry
    goes in front of the entries of equal value already placed, so that
    equal entries keep their order (a stable sort); without it, it goes
    behind them. *)

Definition goes_before (ties_first : bool) (e x : string * Q) : bool :=
  if ties_first then Qle_bool (snd x) (snd e)
  else negb (Qle_bool (snd e) (snd x)).

Fixpoint insert_desc (ties_first : bool) (e : string * Q)
  (l : list (string * Q)) : list (string * Q) :=
  match l with
  | [] => [e]
  | x :: l' =>
      if goes_before ties_first e x then e :: l
      else x :: insert_desc ties_first e l'
  end.

Definition sort_desc (ties_first : bool) (l : list (string * Q))
  : list (string * Q) :=
  fold_right (insert_desc ties_first) [] l.

(** Dates written [YYYY-MM-DD]. *)
Definition digit_value (c : ascii) : option Z :=
  let n := N_of_ascii c in
  if ((48 <=? n) && (n <=? 57))%N then Some (Z.of_N n - 48)%Z else None.

Fixpoint digits_value (s : string) (acc : Z) : option Z :=
  match s with
  | EmptyString => Some acc
  | String c s' =>
      match digit_value c with
      | Some d => digits_value s' (10 * acc + d)%Z
      | None => None
      end
  end.

Definition number_of (s : string) : option Z :=
  match s with
  | EmptyString => None
  | _ => digits_value s 0
  end.

Definition is_leap (y : Z) : bool :=
  ((y mod 4 =? 0) && (negb (y mod 100 =? 0) || (y mod 400 =? 0)))%Z.

Definition days_in_month (y m : Z) : Z :=
  if (m =? 2)%Z then (if is_leap y then 29 else 28)%Z
  else if ((m =? 4) || (m =? 6) || (m =? 9) || (m =? 11))%Z then 30%Z
  else 31%Z.

Definition valid_timestampb (t : Timestamp) : bool :=
  ((1677 <=? year t) && (year t <=? 2262)
   && (1 <=? month t) && (month t <=? 12)
   && (1 <=? day t) && (day t <=? days_in_month (year t) (month t)))%Z.

Definition parse_iso_date (s : string) : option Timestamp :=
  if negb (String.length s =? 10)%nat then None
  else if negb (String.eqb (substring 4 1 s) "-" && String.eqb (substring 7 1 s) "-")
  then None
  else
    match number_of (substring 0 4 s), number_of (substring 5 2 s),
          number_of (substring 8 2 s) with
    | Some y, Some m, Some d =>
        let t := mkTs y m d in
        if valid_timestampb t then Some t else None
    | _, _, _ => None
    end.

Definition datetime_of_cell (c : cell) : option Timestamp :=
  match c with
  | Txt s => parse_iso_date s
  | Ts t => if valid_timestampb t then Some t else None
  | _ => None
  end.

(** Numbers written as digits, with an optional sign and fraction. *)
Definition parse_unsigned (s : string) : option Q :=
  match index 0 "." s with
  | None => option_map inject_Z (number_of s)
  | Some i =>
      let whole := substring 0 i s in
      let frac := substring (S i) (String.length s - S i) s in
      match number_of whole, number_of frac with
      | Some w, Some f =>
          Some (inject_Z w
                + inject_Z f / inject_Z (10 ^ Z.of_nat (String.length frac)))%Q
      | _, _ => None
      end
  end.

Definition parse_decimal (s : string) : option Q :=
  match s with
  | String "-" s' => option_map Qopp (parse_unsigned s')
  | _ => parse_unsigned s
  end.

Definition numeric_of_cell (c : cell) : option Q :=
  match c with
  | Num q => Some q
  | Txt s => parse_decimal s
  | _ => None
  end.


(** ** Example frames *)

Definition example_header : list string :=
  ["Date"; "Total Items"; "Total Cost"; "Product"; "City"].

Definition example_row (d : cell) (items cost : cell) (product city : cell) : Row :=
  [("Date", d); ("Total Items", items); ("Total Cost", cost);
   ("Product", product); ("City", city)].

(** The two rows of the specification's example (section 8). *)
Definition two_rows : DataFrame :=
  mkDF example_header
    [example_row (Txt "2024-01-15") (Num 3) (Num 30) (Txt "A") (Txt "X");
     example_row (Txt "2024-01-20") (Num 2) (Num 20) (Txt "B") (Txt "Y")].

(** A file whose only row has a date that does not parse. *)
Definition one_bad_date : DataFrame :=
  mkDF example_header
    [example_row (Txt "someday") (Num 3) (Num 30) (Txt "A") (Txt "X")].

(** A header without rows. *)
Definition no_rows : DataFrame := mkDF example_header [].


(** The summary of [two_rows]. *)
Definition two_rows_kpis : KPIs :=
  mkKPIs 50 2 (Some (50 # 2)) 5
         [("A", 30%Q); ("B", 20%Q)]
         (Some [("X", 30%Q); ("Y", 20%Q)])
         [("2024-01", 50%Q)].

(** The summary of a frame without transactions. *)
Definition empty_kpis : KPIs := mkKPIs 0 0 None 0 [] (Some []) [].

(** A file that names its columns "Items", "Quantity" and "Cost". *)
Definition other_names : DataFrame :=
  mkDF ["Date"; "Items"; "Quantity"; "Cost"; "Product"]
    [[("Date", Txt "2024-01-15"); ("Items", Num 3); ("Quantity", Num 3);
      ("Cost", Num 30); ("Product", Txt "A")]].

(** A file without a product column, and one without a city column. *)
Definition no_product : DataFrame :=
  mkDF ["Date"; "Total Items"; "Total Cost"; "City"]
    [[("Date", Txt "2024-01-15"); ("Total Items", Num 3);
      ("Total Cost", Num 30); ("City", Txt "X")]].

Definition no_city : DataFrame :=
  mkDF ["Date"; "Total Items"; "Total Cost"; "Product"]
    [[("Date", Txt "2024-01-15"); ("Total Items", Num 3);
      ("Total Cost", Num 30); ("Product", Txt "A")]].


(** The rows dated in the month with period key [k]. *)
Definition in_month (k : string) (r : Row) : bool :=
  match get "date" r with
  | Ts t => String.eqb (period_str t) k
  | _ => false
  end.

(** One calendar month before another. *)
Definition month_before (t t' : Timestamp) : Prop :=
  (year t < year t' \/ (year t = year t' /\ month t < month t'))%Z.


(** What the specification asks of a top-five table besides its order by
    value: entries of equal value stand in the order the grouping lists
    them, that is in ascending order of key. *)
Definition tie_order (a b : string * Q) : Prop :=
  (snd a == snd b)%Q -> key_lt a b.

Definition ties_in_group_order (t : list (string * Q)) : Prop :=
  StronglySorted tie_order t.

(** A top-five table of the frame [df] for the grouping column [key]: at
    most five entries, in descending order of value, each the key of a
    group with the sum of revenue over the rows of that group; a group
    that is left out has a sum no larger than any entry, and then the
    table is full. *)
Definition top_five_of (key : string) (df : DataFrame) (t : list (string * Q))
  : Prop :=
  (List.length t <= 5)%nat
  /\ StronglySorted desc_by_value t
  /\ (forall k v, In (k, v) t ->
        (exists r, In r (rows df) /\ group_key (get key r) = Some k)
        /\ (v == group_total key k (rows df))%Q)
  /\ (forall r k, In r (rows df) -> group_key (get key r) = Some k ->
        In k (map fst t)
        \/ (List.length t = 5%nat
            /\ forall e, In e t -> (group_total key k (rows df) <= snd e)%Q)).

(** What a run [d] of the script shows for the selected city [x]: the
    monthly table and the table of products are those of the rows whose
    city is [x]; the four scalars and the table of cities are those of
    the whole cleaned frame. *)
Definition shows_city (P : Pandas) (d : Dashboard) (x : string) : Prop :=
  let subset := filter_city (Txt x) (df_clean d) in
  (forall r, In r (rows subset) <->
             In r (rows (df_clean d)) /\ get "city" r = Txt x)
  /\ monthly subset = Ok (revenue_by_month (shown d))
  /\ top5_by "product" subset = Ok (revenue_by_product (shown d))
  /\ (forall k v, In (k, v) (revenue_by_month (shown d)) ->
        (v == Qsum (map revenue_of
                      (filter (fun r => py_eq (get "city" r) (Txt x)
                                         && in_month k r)
                              (rows (df_clean d)))))%Q)
  /\ (exists whole,
        compute_kpis (df_clean d) = Ok whole
        /\ total_revenue (shown d) = total_revenue whole
        /\ total_transactions (shown d) = total_transactions whole
        /\ avg_order_value (shown d) = avg_order_value whole
        /\ total_items_sold (shown d) = total_items_sold whole
        /\ revenue_by_city (shown d) = revenue_by_city whole).

(** Two rows whose first city is called "All". *)
Definition city_called_All : DataFrame :=
  mkDF example_header
    [example_row (Txt "2024-01-15") (Num 3) (Num 30) (Txt "A") (Txt "All");
     example_row (Txt "2024-01-20") (Num 2) (Num 20) (Txt "B") (Txt "Y")].


(** ** The shape of formatted numbers *)

Definition is_digit (c : ascii) : bool :=
  ((48 <=? N_of_ascii c) && (N_of_ascii c <=? 57))%N.

Definition all_digits (s : string) : bool :=
  forallb is_digit (list_ascii_of_string s).

(** Read from the right: three digits and a comma, again and again, then
    one to three digits. *)
Fixpoint grouped_rev (l : list ascii) : bool :=
  match l with
  | a :: b :: c :: d :: more =>
      is_digit a && is_digit b && is_digit c && Ascii.eqb d ","
      && grouped_rev more
  | [] => false
  | _ => forallb is_digit l
  end.

Definition thousands_grouped (s : string) : bool :=
  grouped_rev (rev (list_ascii_of_string s)).

(** A frame of [n] equal rows. *)
Definition many_rows (n : nat) : DataFrame :=
  mkDF example_header
    (repeat (example_row (Txt "2024-01-15") (Num 3) (Num 30) (Txt "A") (Txt "X")) n).

(** The line of the summary text that reports the number of transactions. *)
Definition transactions_line `{Pandas} (raw : DataFrame) : string :=
  match script raw 0 with
  | Ok d => nth 2 (summary_lines (kpis d)) ""
  | _ => ""
  end.

(** The shape of one line of the summary text: a section title, an amount
    with its integer part grouped by thousands and two decimals, the
    average of no transaction, the number of transactions in plain
    digits, or the number of items grouped by thousands. *)
Inductive line_shape (k : KPIs) : string -> Prop :=
| title_line (s : string) :
    In s ["=== High-Level Sales Summary ===";
          (newline ++ "=== Top 5 Products by Revenue ===")%string;
          (newline ++ "=== Top 5 Cities by Revenue ===")%string;
          (newline ++ "=== Monthly Revenue (chronological) ===")%string] ->
    line_shape k s
| amount_line (label : string) (q : Q) (whole : string) (d1 d2 : ascii) :
    format_2f q
    = (sign_of q ++ whole ++ "." ++ String d1 (String d2 ""))%string ->
    thousands_grouped whole = true ->
    is_digit d1 = true -> is_digit d2 = true ->
    line_shape k (label ++ "$" ++ format_2f q)%string
| nan_line :
    avg_order_value k = None ->
    line_shape k "Average order value: $nan"
| transactions_count_line (digits : string) :
    digits = decimal (Z.of_nat (total_transactions k)) ->
    all_digits digits = true ->
    line_shape k ("Total transactions: " ++ digits)%string
| items_count_line (whole : string) :
    format_0f (total_items_sold k)
    = (sign_of (total_items_sold k) ++ whole)%string ->
    thousands_grouped whole = true ->
    line_shape k ("Total items sold: " ++ format_0f (total_items_sold k))%string.

(** The rows of [df[c] = s], row by row. *)
Definition set_all (c : string) (s : list cell) (rs : list Row) : list Row :=
  map (fun rv => set c (snd rv) (fst rv)) (combine rs s).

(** A row of a cleaned frame: a timestamp within bounds, two numbers and
    the period key of the timestamp. *)
Definition clean_row (r : Row) : Prop :=
  exists t, transaction_of r = Some t
            /\ Spec.period_key t = period_str (Spec.date t)
            /\ valid_timestamp (Spec.date t).


(** Two rows, the second without a city. *)
Definition one_city_missing : DataFrame :=
  mkDF example_header
    [example_row (Txt "2024-01-15") (Num 3) (Num 30) (Txt "A") (Txt "X");
     example_row (Txt "2024-01-20") (Num 2) (Num 20) (Txt "B") NaN].


(** A file that has a column "Quantity" of its own, at odds with its
    column "Total Items". *)
Definition own_quantity : DataFrame :=
  mkDF ["Date"; "Total Items"; "Total Cost"; "Product"; "Quantity"]
    [[("Date", Txt "2024-01-15"); ("Total Items", Num 3);
      ("Total Cost", Num 30); ("Product", Txt "A"); ("Quantity", Num 99)]].

(** A value that parsed. *)
Definition parsed {A : Type} (o : option A) : bool :=
  match o with Some _ => true | None => false end.

(** Every date, item count and cost of the file parsed. *)
Definition all_parsed `{Pandas} (raw : DataFrame) : bool :=
  let df := relabelled raw in
  forallb parsed (to_datetime (getcol "date" df))
  && forallb parsed (to_numeric (getcol "total_items" df))
  && forallb parsed (to_numeric (getcol "total_cost" df)).

(** The labels that cleaning writes. *)
Definition written_by_cleaning (c : string) : bool :=
  existsb (String.eqb c)
    ["date"; "total_items"; "total_cost"; "quantity"; "revenue"; "year_month"].


(** Every character of a string passes a test. *)
Fixpoint every_char (p : ascii -> bool) (s : string) : bool :=
  match s with
  | EmptyString => true
  | String c s' => p c && every_char p s'
  end.

(** A string of white space, in the sense of [str.strip]. *)
Definition blank (s : string) : bool := every_char PyStr.is_space s.

(** [str.upper] would change the character: an upper-case letter. *)
Definition is_upper (c : ascii) : bool :=
  negb (Ascii.eqb (PyStr.lower_char c) c).


(** ** The KPI row (lines 155-158): the label and the value of each of
    the four [metric] widgets *)

Definition kpi_row (k : KPIs) : list (string * string) :=
  [("Total Revenue", ("$" ++ format_0f (total_revenue k))%string);
   ("Total Transactions", group3 (decimal (Z.of_nat (total_transactions k))));
   ("Avg Order Value", ("$" ++ format_float_2f (avg_order_value k))%string);
   ("Total Items Sold", format_0f (total_items_sold k))].

(** A text without its commas. *)
Definition remove_commas (s : string) : string :=
  string_of_list_ascii
    (filter (fun c => negb (Ascii.eqb c ",")) (list_ascii_of_string s)).


(** ** The frames the model covers

    pandas selects a frame, not a column, under a label that occurs
    twice, and the calls of the script then raise.  The statements that
    say what the script returns are about files whose canonical labels are
    pairwise distinct, and, where they speak of groups, whose product and
    city cells are text or missing. *)

Fixpoint all_distinct (l : list string) : bool :=
  match l with
  | [] => true
  | x :: l' => negb (existsb (String.eqb x) l') && all_distinct l'
  end.

Definition distinct_labels (raw : DataFrame) : bool :=
  all_distinct (map canon (columns raw)).

Definition text_or_missing (c : cell) : bool :=
  match c with
  | Txt _ | NaN => true
  | _ => false
  end.

Definition text_keys (df : DataFrame) : bool :=
  forallb (fun r => text_or_missing (get "product" r)
                    && text_or_missing (get "city" r))
          (rows df).



(** ** The sort behind [sort_values]

    [Series.sort_values(ascending=False)] computes its order with
    [nargsort] (pandas/core/sorting.py): the values are reversed, sorted
    with [ndarray.argsort(kind="quicksort")], and the resulting indexer is
    reversed again.  For float64 the argsort of that kind is numpy's
    [aquicksort_] (numpy/_core/src/npysort/quicksort.cpp), an introsort
    over an array of indices: median-of-three quicksort down to segments
    of at most 17 entries, which an insertion sort finishes, with
    [aheapsort_] (heapsort.cpp) for a segment whose depth budget is
    spent.  This is the generic routine; a build that dispatches to a
    vectorised sort on the processor at hand orders ties in yet another
    way.  Pointers into the index array are offsets in [Z]. *)
Module NumPy.

Local Open Scope Z_scope.

(** [Tag::less] on two floats that are not NaN. *)
Definition less (x y : Q) : bool := negb (Qle_bool y x).

Definition rd (a : list Z) (p : Z) : Z := nth (Z.to_nat p) a 0.

Fixpoint wr_nat (a : list Z) (n : nat) (x : Z) : list Z :=
  match a, n with
  | [], _ => []
  | _ :: a', O => x :: a'
  | y :: a', S n' => y :: wr_nat a' n' x
  end.

Definition wr (a : list Z) (p x : Z) : list Z :=
  if p <? 0 then a else wr_nat a (Z.to_nat p) x.

(** [INTP_SWAP( *p, *q)] *)
Definition swap (a : list Z) (p q : Z) : list Z :=
  wr (wr a p (rd a q)) q (rd a p).

Definition SMALL_QUICKSORT : Z := 16.

(** [npy_get_msb] *)
Definition npy_get_msb (n : Z) : Z := Z.log2 n.

Section Argsort.

Variable v : list Q.

Definition at_index (i : Z) : Q := nth (Z.to_nat i) v 0%Q.

(** [v[*p]] *)
Definition key (a : list Z) (p : Z) : Q := at_index (rd a p).

(** *** [aheapsort_]: the segment of [n] entries from [pl], indexed from 1 *)

Definition rd1 (a : list Z) (pl k : Z) : Z := rd a (pl + k - 1).
Definition wr1 (a : list Z) (pl k x : Z) : list Z := wr a (pl + k - 1) x.

Fixpoint sift (fuel : nat) (a : list Z) (pl tmp i j n : Z) : list Z * Z :=
  match fuel with
  | O => (a, i)
  | S f =>
      if j <=? n then
        let j := if (j <? n) && less (at_index (rd1 a pl j))
                                    (at_index (rd1 a pl (j + 1)))
                 then j + 1 else j in
        if less (at_index tmp) (at_index (rd1 a pl j))
        then sift f (wr1 a pl i (rd1 a pl j)) pl tmp j (j + j) n
        else (a, i)
      else (a, i)
  end.

Fixpoint heapify (fuel : nat) (a : list Z) (pl l n : Z) : list Z :=
  match fuel with
  | O => a
  | S f =>
      if 0 <? l then
        let tmp := rd1 a pl l in
        let '(a', i) := sift (Z.to_nat n) a pl tmp l (Z.shiftl l 1) n in
        heapify f (wr1 a' pl i tmp) pl (l - 1) n
      else a
  end.

Fixpoint heap_pop (fuel : nat) (a : list Z) (pl n : Z) : list Z :=
  match fuel with
  | O => a
  | S f =>
      if 1 <? n then
        let tmp := rd1 a pl n in
        let a := wr1 a pl n (rd1 a pl 1) in
        let n := n - 1 in
        let '(a', i) := sift (Z.to_nat n) a pl tmp 1 2 n in
        heap_pop f (wr1 a' pl i tmp) pl n
      else a
  end.

Definition aheapsort (a : list Z) (pl n : Z) : list Z :=
  heap_pop (Z.to_nat n) (heapify (Z.to_nat n) a pl (Z.shiftr n 1) n) pl n.

(** *** [aquicksort_] *)

(** [do ++pi; while (less(v[*pi], vp));] *)
Fixpoint scan_up (fuel : nat) (a : list Z) (vp : Q) (pi : Z) : Z :=
  match fuel with
  | O => pi
  | S f =>
      let pi := pi + 1 in
      if less (key a pi) vp then scan_up f a vp pi else pi
  end.

(** [do --pj; while (less(vp, v[*pj]));] *)
Fixpoint scan_down (fuel : nat) (a : list Z) (vp : Q) (pj : Z) : Z :=
  match fuel with
  | O => pj
  | S f =>
      let pj := pj - 1 in
      if less vp (key a pj) then scan_down f a vp pj else pj
  end.

(** The partition loop; the result is the array with the final [pi]. *)
Fixpoint partition (fuel : nat) (a : list Z) (vp : Q) (pi pj : Z)
  : list Z * Z :=
  match fuel with
  | O => (a, pi)
  | S f =>
      let pi := scan_up (List.length a) a vp pi in
      let pj := scan_down (List.length a) a vp pj in
      if pj <=? pi then (a, pi)
      else partition f (swap a pi pj) vp pi pj
  end.

(** The median of three, left at [pm]. *)
Definition median3 (a : list Z) (pl pm pr : Z) : list Z :=
  let a := if less (key a pm) (key a pl) then swap a pm pl else a in
  let a := if less (key a pr) (key a pm) then swap a pr pm else a in
  if less (key a pm) (key a pl) then swap a pm pl else a.

(** [while (pj > pl && less(vp, v[*pk])) *pj-- = *pk--;] *)
Fixpoint shift (fuel : nat) (a : list Z) (pl : Z) (vp : Q) (pj : Z)
  : list Z * Z :=
  match fuel with
  | O => (a, pj)
  | S f =>
      if (pl <? pj) && less vp (key a (pj - 1))
      then shift f (wr a pj (rd a (pj - 1))) pl vp (pj - 1)
      else (a, pj)
  end.

(** The insertion sort of the segment from [pl] to [pr], from [pi] on. *)
Fixpoint insertion (fuel : nat) (a : list Z) (pl pr pi : Z) : list Z :=
  match fuel with
  | O => a
  | S f =>
      if pi <=? pr then
        let vi := rd a pi in
        let '(a', pj) := shift (Z.to_nat (pi - pl)) a pl (at_index vi) pi in
        insertion f (wr a' pj vi) pl pr (pi + 1)
      else a
  end.

(** The main loop.  A stack entry is a segment with its depth budget.
    [inner] says that control is inside [while ((pr - pl) >
    SMALL_QUICKSORT)], where the budget is not looked at. *)
Fixpoint sort_loop (fuel : nat) (inner : bool) (a : list Z)
  (pl pr cdepth : Z) (stack : list (Z * Z * Z)) : list Z :=
  match fuel with
  | O => a
  | S f =>
      let stack_pop (a : list Z) :=
        match stack with
        | [] => a
        | (pl', pr', cdepth') :: stack' =>
            sort_loop f false a pl' pr' cdepth' stack'
        end in
      if negb inner && (cdepth <? 0) then
        stack_pop (aheapsort a pl (pr - pl + 1))
      else if SMALL_QUICKSORT <? pr - pl then
        let pm := pl + Z.shiftr (pr - pl) 1 in
        let a := median3 a pl pm pr in
        let vp := key a pm in
        let a := swap a pm (pr - 1) in
        let '(a, pi) := partition (List.length a) a vp pl (pr - 1) in
        let a := swap a pi (pr - 1) in
        let cdepth := cdepth - 1 in
        if pi - pl <? pr - pi
        then sort_loop f true a pl (pi - 1) cdepth
                       ((pi + 1, pr, cdepth) :: stack)
        else sort_loop f true a (pi + 1) pr cdepth
                       ((pl, pi - 1, cdepth) :: stack)
      else
        stack_pop (insertion (Z.to_nat (pr - pl)) a pl pr (pl + 1))
  end.

(** [ndarray.argsort(kind="quicksort")]: the index array starts as
    [0, 1, ..., num - 1]. *)
Definition argsort : list Z :=
  let num := Z.of_nat (List.length v) in
  let tosort := map Z.of_nat (seq 0 (List.length v)) in
  sort_loop (2 * List.length v + 2) false tosort 0 (num - 1)
            (npy_get_msb num * 2) [].

End Argsort.

(** [nargsort(items, kind="quicksort", ascending=False)] on values none
    of which is missing. *)
Definition nargsort_desc (items : list Q) : list nat :=
  let idx := seq 0 (List.length items) in
  let non_nans := rev items in
  let non_nan_idx := rev idx in
  let indexer :=
    map (fun k => nth (Z.to_nat k) non_nan_idx 0%nat) (argsort non_nans) in
  rev indexer.

End NumPy.

(** The entries of a table at the positions of an indexer:
    [values[sorted_index]] with [index[sorted_index]]. *)
Definition take (l : list (string * Q)) (ix : list nat) : list (string * Q) :=
  map (fun i => nth i l (EmptyString, 0%Q)) ix.

(** An indexer over [n] entries names every position and has [n]
    entries. *)
Definition is_reordering (n : nat) (ix : list nat) : bool :=
  (List.length ix =? n)%nat
  && forallb (fun i => existsb (Nat.eqb i) ix) (seq 0 n).

Fixpoint sorted_descb (l : list (string * Q)) : bool :=
  match l with
  | a :: (b :: _) as l' => Qle_bool (snd b) (snd a) && sorted_descb l'
  | _ => true
  end.

(** [sort_values(ascending=False)] through [nargsort] and numpy's
    argsort.  The order that comes out is checked to be a reordering in
    descending order, and the two laws of a sort are drawn from the check,
    not from a proof of the introsort; the insertion sort stands in for
    an order that would fail it. *)
Definition numpy_sort_values (l : list (string * Q)) : list (string * Q) :=
  let ix := NumPy.nargsort_desc (map snd l) in
  if is_reordering (List.length l) ix && sorted_descb (take l ix)
  then take l ix
  else sort_desc true l.

(** Eighteen records, one to a product, each with the same cost. *)
Definition product_names : list string :=
  ["P01"; "P02"; "P03"; "P04"; "P05"; "P06"; "P07"; "P08"; "P09";
   "P10"; "P11"; "P12"; "P13"; "P14"; "P15"; "P16"; "P17"; "P18"].

Definition eighteen_tied_products : DataFrame :=
  mkDF example_header
    (map (fun p => example_row (Txt "2024-01-15") (Num 1) (Num 10)
                               (Txt p) (Txt "X"))
         product_names).


(** ** Labels that differ in case and white space only

    What the specification calls casing and white-space equivalents of a
    label, said without the canonical form: white space around the label
    aside, the two labels have the same length and agree character by
    character, where a letter agrees with itself in either case and a
    space agrees with an underscore. *)

(** The code points of the Latin-1 range that have a lower-case form. *)
Definition upper_code (n : N) : bool :=
  (((65 <=? n) && (n <=? 90))
   || ((192 <=? n) && (n <=? 222) && negb (n =? 215)))%N.

Definition same_letter (x y : ascii) : bool :=
  let n := PyStr.code x in
  let m := PyStr.code y in
  ((n =? m) || (upper_code n && (m =? n + 32))
   || (upper_code m && (n =? m + 32)))%N.

Definition separator (c : ascii) : bool :=
  Ascii.eqb c " " || Ascii.eqb c "_".

Definition same_char (x y : ascii) : bool :=
  same_letter x y || (separator x && separator y).

Fixpoint same_chars (s t : string) : bool :=
  match s, t with
  | EmptyString, EmptyString => true
  | String x s', String y t' => same_char x y && same_chars s' t'
  | _, _ => false
  end.

Definition alike (n m : string) : bool :=
  same_chars (PyStr.strip n) (PyStr.strip m).

(** Two frames with labels alike, position by position. *)
Definition labels_alike (raw1 raw2 : DataFrame) : Prop :=
  Forall2 (fun n m => alike n m = true) (columns raw1) (columns raw2).

(** Two frames with the same cells, row by row. *)
Definition same_cells (raw1 raw2 : DataFrame) : Prop :=
  map (map snd) (rows raw1) = map (map snd) (rows raw2).

(** The two records of the example under canonical labels, and under
    labels in other cases, with blanks around and a space for an
    underscore. *)
Definition labelled_rows (labels : list string) : DataFrame :=
  mkDF labels
    [combine labels
       [Txt "2024-01-15"; Num 3; Num 30; Txt "A"; Txt "X"];
     combine labels
       [Txt "2024-01-20"; Num 2; Num 20; Txt "B"; Txt "Y"]].

Definition canonical_labels : list string :=
  ["date"; "total_items"; "total_cost"; "product"; "city"].

Definition written_labels : list string :=
  ["  DATE"; "Total_Items "; "TOTAL COST"; "product"; " City "].

(** Every character of the range. *)
Definition all_ascii : list ascii := map ascii_of_nat (seq 0 256).

(** * Properties *)

(** ** Canonical column labels *)

Module PyStrFacts.
Import PyStr.

Ltac by_cases_on_char c :=
  destruct c as [[] [] [] [] [] [] [] []]; reflexivity.

Lemma lower_char_idem (c : ascii) : lower_char (lower_char c) = lower_char c.
Proof. by_cases_on_char c. Qed.

Lemma is_space_lower_char (c : ascii) : is_space (lower_char c) = is_space c.
Proof. by_cases_on_char c. Qed.

Lemma lower_char_underscored (c : ascii) :
  lower_char (space_to_underscore c) = space_to_underscore (lower_char c).
Proof. by_cases_on_char c. Qed.

Lemma space_to_underscore_idem (c : ascii) :
  space_to_underscore (space_to_underscore c) = space_to_underscore c.
Proof. by_cases_on_char c. Qed.

Lemma space_to_underscore_keeps (c : ascii) :
  is_space c = false -> space_to_underscore c = c.
Proof.
  destruct c as [[] [] [] [] [] [] [] []]; (reflexivity || discriminate).
Qed.

Lemma map_chars_compose (f g : ascii -> ascii) (s : string) :
  map_chars f (map_chars g s) = map_chars (fun c => f (g c)) s.
Proof. induction s as [|c s IH]; simpl; [reflexivity | now rewrite IH]. Qed.

Lemma map_chars_ext (f g : ascii -> ascii) (s : string) :
  (forall c, f c = g c) -> map_chars f s = map_chars g s.
Proof.
  intros E. induction s as [|c s IH]; simpl; [reflexivity | now rewrite E, IH].
Qed.

Lemma map_chars_empty (f : ascii -> ascii) (s : string) :
  map_chars f s = EmptyString -> s = EmptyString.
Proof. destruct s; simpl; [reflexivity | discriminate]. Qed.

Lemma lower_idem (s : string) : lower (lower s) = lower s.
Proof.
  unfold lower. rewrite map_chars_compose.
  apply map_chars_ext, lower_char_idem.
Qed.

Lemma lower_lstrip (s : string) : lower (lstrip s) = lstrip (lower s).
Proof.
  induction s as [|c s IH]; simpl; [reflexivity|].
  rewrite is_space_lower_char. destruct (is_space c); [exact IH | reflexivity].
Qed.

Lemma lower_rstrip (s : string) : lower (rstrip s) = rstrip (lower s).
Proof.
  induction s as [|c s IH]; simpl; [reflexivity|].
  fold (lower s). rewrite <- IH, is_space_lower_char.
  destruct (rstrip s) as [|c' r]; simpl.
  - destruct (is_space c); reflexivity.
  - reflexivity.
Qed.

Lemma lower_strip (s : string) : lower (strip s) = strip (lower s).
Proof. unfold strip. now rewrite lower_rstrip, lower_lstrip. Qed.

Lemma lower_replace_spaces (s : string) :
  lower (replace_spaces s) = replace_spaces (lower s).
Proof.
  unfold lower, replace_spaces. rewrite !map_chars_compose.
  apply map_chars_ext, lower_char_underscored.
Qed.

(** No white space in front. *)
Definition no_lead (s : string) : Prop :=
  match s with
  | EmptyString => True
  | String c _ => is_space c = false
  end.

Lemma lstrip_no_lead (s : string) : no_lead (lstrip s).
Proof.
  induction s as [|c s IH]; simpl; [exact I|].
  destruct (is_space c) eqn:E; [exact IH | exact E].
Qed.

Lemma no_lead_lstrip (s : string) : no_lead s -> lstrip s = s.
Proof. destruct s as [|c s]; simpl; [reflexivity | now intros ->]. Qed.

Lemma rstrip_no_lead (s : string) : no_lead s -> no_lead (rstrip s).
Proof.
  destruct s as [|c s]; simpl; [trivial|]. intros E.
  destruct (rstrip s); simpl; [rewrite E; exact E | exact E].
Qed.

Lemma rstrip_idem (s : string) : rstrip (rstrip s) = rstrip s.
Proof.
  induction s as [|c s IH]; simpl; [reflexivity|].
  destruct (rstrip s) as [|c' r] eqn:E.
  - destruct (is_space c) eqn:Ec; simpl; [reflexivity | now rewrite Ec].
  - change (rstrip (String c (String c' r)) = String c (String c' r)).
    cbn [rstrip]. cbn [rstrip] in IH. 
    destruct (rstrip r); rewrite IH; reflexivity.
Qed.

Lemma rstrip_fixed_replace (s : string) :
  rstrip s = s -> rstrip (replace_spaces s) = replace_spaces s.
Proof.
  induction s as [|c s IH]; [reflexivity|].
  cbn [rstrip replace_spaces map_chars]. fold (replace_spaces s).
  destruct (rstrip s) as [|c' r] eqn:E.
  - destruct (is_space c) eqn:Ec; [discriminate|].
    intros [= <-]. cbn. now rewrite (space_to_underscore_keeps c Ec), Ec.
  - intros [= <-]. rewrite (IH eq_refl). reflexivity.
Qed.

Lemma replace_no_lead (s : string) : no_lead s -> no_lead (replace_spaces s).
Proof.
  destruct s as [|c s]; simpl; [trivial|].
  intros E. now rewrite (space_to_underscore_keeps c E).
Qed.

Lemma strip_replace_strip (s : string) :
  strip (replace_spaces (strip s)) = replace_spaces (strip s).
Proof.
  unfold strip at 1.
  rewrite no_lead_lstrip.
  - apply rstrip_fixed_replace. unfold strip. apply rstrip_idem.
  - apply replace_no_lead. unfold strip. apply rstrip_no_lead, lstrip_no_lead.
Qed.

Lemma replace_spaces_idem (s : string) :
  replace_spaces (replace_spaces s) = replace_spaces s.
Proof.
  unfold replace_spaces. rewrite map_chars_compose.
  apply map_chars_ext, space_to_underscore_idem.
Qed.

End PyStrFacts.

Lemma canon_idempotent (c : string) : canon (canon c) = canon c.
Proof.
  unfold canon.
  rewrite PyStrFacts.lower_replace_spaces, PyStrFacts.lower_strip,
    PyStrFacts.lower_idem, PyStrFacts.strip_replace_strip.
  apply PyStrFacts.replace_spaces_idem.
Qed.

(** ** Rows and columns *)

Lemma get_set_same (c : string) (v : cell) (r : Row) : get c (set c v r) = v.
Proof.
  induction r as [|[k w] r IH]; simpl.
  - now rewrite String.eqb_refl.
  - destruct (String.eqb c k) eqn:E; simpl; rewrite E; [reflexivity | exact IH].
Qed.

Lemma get_set_other (c c' : string) (v : cell) (r : Row) :
  String.eqb c c' = false -> get c (set c' v r) = get c r.
Proof.
  intros N. induction r as [|[k w] r IH]; simpl.
  - now rewrite N.
  - destruct (String.eqb c' k) eqn:E; simpl.
    + apply String.eqb_eq in E. subst k. now rewrite N.
    + now rewrite IH.
Qed.

Lemma rows_setcol (c : string) (s : list cell) (df : DataFrame) :
  rows (setcol c s df) = set_all c s (rows df).
Proof. reflexivity. Qed.

Lemma set_all_length (c : string) (s : list cell) (rs : list Row) :
  List.length s = List.length rs -> List.length (set_all c s rs) = List.length rs.
Proof.
  intros L. unfold set_all. rewrite length_map, length_combine. lia.
Qed.

Lemma get_set_all_same (c : string) (s : list cell) (rs : list Row) :
  List.length s = List.length rs -> map (get c) (set_all c s rs) = s.
Proof.
  revert s. induction rs as [|r rs IH]; intros [|v s] L; try discriminate L.
  - reflexivity.
  - unfold set_all in *. simpl. rewrite get_set_same. f_equal.
    apply IH. simpl in L. lia.
Qed.

Lemma get_set_all_other (c c' : string) (s : list cell) (rs : list Row) :
  String.eqb c c' = false -> List.length s = List.length rs ->
  map (get c) (set_all c' s rs) = map (get c) rs.
Proof.
  intros N. revert s.
  induction rs as [|r rs IH]; intros [|v s] L; try discriminate L.
  - reflexivity.
  - unfold set_all in *. simpl. rewrite get_set_other by exact N. f_equal.
    apply IH. simpl in L. lia.
Qed.

Lemma set_all_rowwise (c : string) (f : Row -> cell) (rs : list Row) :
  set_all c (map f rs) rs = map (fun r => set c (f r) r) rs.
Proof.
  unfold set_all. induction rs as [|r rs IH]; simpl; [reflexivity | now rewrite IH].
Qed.

Lemma has_col_setcol (c c' : string) (s : list cell) (df : DataFrame) :
  has_col c (setcol c' s df) = has_col c df || String.eqb c c'.
Proof.
  unfold setcol, has_col. simpl.
  destruct (existsb (String.eqb c') (columns df)) eqn:E.
  - destruct (String.eqb c c') eqn:E'.
    + apply String.eqb_eq in E'. subst c'. now rewrite E.
    + now rewrite orb_false_r.
  - rewrite existsb_app. simpl. now rewrite orb_false_r.
Qed.

Lemma has_col_In (c : string) (df : DataFrame) :
  has_col c df = true <-> In c (columns df).
Proof.
  unfold has_col. rewrite existsb_exists. split.
  - intros [x [I E]]. apply String.eqb_eq in E. now subst.
  - intros I. exists c. split; [exact I | apply String.eqb_refl].
Qed.

(** ** [load_and_clean_data], stage by stage *)

Section Cleaning.
Context `{P : Pandas}.

Lemma date_cells_length (raw : DataFrame) :
  List.length (date_cells raw) = List.length (rows (relabelled raw)).
Proof.
  unfold date_cells, getcol. now rewrite length_map, to_datetime_length, length_map.
Qed.

Lemma items_cells_length (raw : DataFrame) :
  List.length (items_cells raw) = List.length (rows (relabelled raw)).
Proof.
  unfold items_cells, getcol. now rewrite length_map, to_numeric_length, length_map.
Qed.

Lemma cost_cells_length (raw : DataFrame) :
  List.length (cost_cells raw) = List.length (rows (relabelled raw)).
Proof.
  unfold cost_cells, getcol. now rewrite length_map, to_numeric_length, length_map.
Qed.

Lemma required_present_has_col (raw : DataFrame) :
  required_present raw <->
  has_col "date" (relabelled raw) = true
  /\ has_col "total_items" (relabelled raw) = true
  /\ has_col "total_cost" (relabelled raw) = true.
Proof.
  unfold required_present. rewrite !has_col_In. reflexivity.
Qed.

Lemma getcol_setcol_same (c : string) (s : list cell) (df : DataFrame) :
  List.length s = List.length (rows df) -> getcol c (setcol c s df) = s.
Proof. intros L. unfold getcol. rewrite rows_setcol. now apply get_set_all_same. Qed.

Lemma getcol_setcol_other (c c' : string) (s : list cell) (df : DataFrame) :
  String.eqb c c' = false -> List.length s = List.length (rows df) ->
  getcol c (setcol c' s df) = getcol c df.
Proof.
  intros N L. unfold getcol. rewrite rows_setcol. now apply get_set_all_other.
Qed.

Lemma setcol_length (c : string) (s : list cell) (df : DataFrame) :
  List.length s = List.length (rows df) ->
  List.length (rows (setcol c s df)) = List.length (rows df).
Proof. intros L. rewrite rows_setcol. now apply set_all_length. Qed.

(** With the three labels present no check stops the function, and it
    returns [cleaned]. *)
Lemma load_and_clean_data_cleaned (raw : DataFrame) :
  required_present raw -> load_and_clean_data raw = Ok (cleaned raw).
Proof.
  intros R. apply required_present_has_col in R. destruct R as (Hd & Hi & Hc).
  pose proof (date_cells_length raw) as Ld.
  pose proof (items_cells_length raw) as Li.
  pose proof (cost_cells_length raw) as Lc.
  assert (L1 : List.length (rows (setcol "date" (date_cells raw) (relabelled raw)))
               = List.length (rows (relabelled raw)))
    by (apply setcol_length; exact Ld).
  assert (L2 : List.length (rows (setcol "total_items" (items_cells raw)
                 (setcol "date" (date_cells raw) (relabelled raw))))
               = List.length (rows (relabelled raw)))
    by (rewrite setcol_length; congruence).
  assert (L3 : List.length (rows (setcol "total_cost" (cost_cells raw)
                 (setcol "total_items" (items_cells raw)
                 (setcol "date" (date_cells raw) (relabelled raw)))))
               = List.length (rows (relabelled raw)))
    by (rewrite setcol_length; congruence).
  assert (L4 : List.length (rows (setcol "quantity" (items_cells raw)
                 (setcol "total_cost" (cost_cells raw)
                 (setcol "total_items" (items_cells raw)
                 (setcol "date" (date_cells raw) (relabelled raw))))))
               = List.length (rows (relabelled raw)))
    by (rewrite setcol_length; congruence).
  unfold load_and_clean_data. fold (relabelled raw).
  rewrite Hd. cbn [bind fold_left]. fold (date_cells raw).
  unfold convert_numeric.
  rewrite has_col_setcol, Hi. cbn [orb].
  rewrite (getcol_setcol_other "total_items" "date") by (reflexivity || congruence).
  fold (items_cells raw).
  rewrite !has_col_setcol, Hc. cbn [orb bind].
  rewrite (getcol_setcol_other "total_cost" "total_items") by (reflexivity || congruence).
  rewrite (getcol_setcol_other "total_cost" "date") by (reflexivity || congruence).
  fold (cost_cells raw).
  rewrite !has_col_setcol, Hi. cbn [orb bind].
  rewrite (getcol_setcol_other "total_items" "total_cost") by (reflexivity || congruence).
  rewrite (getcol_setcol_same "total_items") by congruence.
  rewrite !has_col_setcol, Hc. cbn [orb bind].
  rewrite (getcol_setcol_other "total_cost" "quantity") by (reflexivity || congruence).
  rewrite (getcol_setcol_same "total_cost") by congruence.
  reflexivity.
Qed.

(** Every outcome of the function: the message of the first check that
    fails, or [cleaned]. *)
Lemma load_and_clean_data_outcome (raw : DataFrame) :
  load_and_clean_data raw =
  match missing_message raw with
  | Some msg => Stop msg
  | None => Ok (cleaned raw)
  end.
Proof.
  unfold missing_message.
  destruct (has_col "date" (relabelled raw)) eqn:Hd; cbn [negb].
  2:{ unfold load_and_clean_data. fold (relabelled raw). now rewrite Hd. }
  destruct (has_col "total_items" (relabelled raw)) eqn:Hi; cbn [negb].
  2:{ unfold load_and_clean_data. fold (relabelled raw). rewrite Hd.
      cbn [bind fold_left]. unfold convert_numeric.
      rewrite has_col_setcol, Hi.
      change ("total_items" =? "date") with false. cbn [orb].
      destruct (has_col "total_cost" _);
        rewrite ?has_col_setcol, Hi; reflexivity. }
  destruct (has_col "total_cost" (relabelled raw)) eqn:Hc; cbn [negb].
  2:{ unfold load_and_clean_data. fold (relabelled raw). rewrite Hd.
      cbn [bind fold_left]. unfold convert_numeric.
      rewrite has_col_setcol, Hi. cbn [orb].
      rewrite !has_col_setcol, Hc.
      change ("total_cost" =? "total_items") with false.
      change ("total_cost" =? "date") with false. cbn [orb].
      rewrite !has_col_setcol, Hi. cbn [orb bind].
      rewrite !has_col_setcol, Hc. reflexivity. }
  apply load_and_clean_data_cleaned, required_present_has_col. now repeat split.
Qed.

Ltac get_set :=
  repeat (rewrite get_set_same || rewrite get_set_other by reflexivity).

Lemma set_all_cons (c : string) (v : cell) (s : list cell) (r : Row)
  (rs : list Row) :
  set_all c (v :: s) (r :: rs) = set c v r :: set_all c s rs.
Proof. reflexivity. Qed.

Lemma transaction_of_convert_row (r : Row) (d : option Timestamp)
  (q c : option Q) :
  (if complete (convert_row r d q c)
   then [transaction_of (with_year_month (convert_row r d q c))]
   else [])
  = match Spec.normalize_row r d q c with
    | Some t => [Some t]
    | None => []
    end.
Proof.
  unfold complete, with_year_month, transaction_of, convert_row.
  cbn [forallb]. get_set.
  destruct d as [d|], q as [q|], c as [c|]; reflexivity.
Qed.

Lemma rows_converted (rs : list Row) (ds : list (option Timestamp))
  (qs cs : list (option Q)) :
  List.length ds = List.length rs -> List.length qs = List.length rs ->
  List.length cs = List.length rs ->
  map transaction_of
    (map with_year_month
       (filter complete
          (set_all "revenue" (map of_numeric cs)
             (set_all "quantity" (map of_numeric qs)
                (set_all "total_cost" (map of_numeric cs)
                   (set_all "total_items" (map of_numeric qs)
                      (set_all "date" (map of_datetime ds) rs)))))))
  = map Some (Spec.normalize_rows rs ds qs cs).
Proof.
  revert ds qs cs.
  induction rs as [|r rs IH]; intros [|d ds] [|q qs] [|c cs] Ld Lq Lc;
    try discriminate; [reflexivity|].
  cbn [map]. rewrite !set_all_cons. cbn [filter Spec.normalize_rows].
  fold (convert_row r d q c).
  pose proof (transaction_of_convert_row r d q c) as T.
  injection Ld as Ld. injection Lq as Lq. injection Lc as Lc.
  specialize (IH ds qs cs Ld Lq Lc).
  destruct (complete (convert_row r d q c));
    destruct (Spec.normalize_row r d q c); try discriminate T.
  - cbn [map]. injection T as T. now rewrite T, IH.
  - exact IH.
Qed.

(** The cleaned frame holds the transactions of the normaliser, in order. *)
Lemma cleaned_transactions (raw : DataFrame) :
  map transaction_of (rows (cleaned raw)) = map Some (normalize raw).
Proof.
  unfold cleaned, add_year_month, normalize.
  rewrite rows_setcol. unfold getcol at 1. rewrite map_map.
  rewrite (set_all_rowwise "year_month" (fun r => to_period_M_str (get "date" r))).
  change (map (fun r => set "year_month" (to_period_M_str (get "date" r)) r))
    with (map with_year_month).
  unfold dropna. cbn [rows]. fold complete.
  unfold converted. rewrite !rows_setcol.
  unfold cost_cells, items_cells, date_cells.
  apply rows_converted; unfold getcol;
    now rewrite ?to_datetime_length, ?to_numeric_length, length_map.
Qed.

End Cleaning.

(** ** Grouped sums *)

Module GroupFacts.

Lemma compare_refl (k : string) : String_as_OT.compare k k = Eq.
Proof.
  destruct (String_as_OT.compare_spec k k) as [_|L|L]; [reflexivity| |];
    exfalso; exact (StrictOrder_Irreflexive k L).
Qed.

Lemma compare_Eq (k k' : string) : String_as_OT.compare k k' = Eq -> k = k'.
Proof.
  destruct (String_as_OT.compare_spec k k') as [E|L|L]; (exact (fun _ => E) || discriminate).
Qed.

Lemma compare_Lt (k k' : string) :
  String_as_OT.compare k k' = Lt <-> String_as_OT.lt k k'.
Proof. reflexivity. Qed.

Lemma compare_Gt (k k' : string) :
  String_as_OT.compare k k' = Gt -> String_as_OT.lt k' k.
Proof.
  destruct (String_as_OT.compare_spec k k') as [E|L|L]; (exact (fun _ => L) || discriminate).
Qed.

Lemma lt_neq (k k' : string) : String_as_OT.lt k k' -> String.eqb k k' = false.
Proof.
  intros L. apply String.eqb_neq. intros ->.
  exact (StrictOrder_Irreflexive k' L).
Qed.

Lemma lt_trans (a b c : string) :
  String_as_OT.lt a b -> String_as_OT.lt b c -> String_as_OT.lt a c.
Proof. apply (@StrictOrder_Transitive _ _ String_as_OT.lt_strorder). Qed.

Lemma key_lt_trans (a b c : string * Q) : key_lt a b -> key_lt b c -> key_lt a c.
Proof. unfold key_lt. apply lt_trans. Qed.

Lemma add_to_group_keys (k : string) (v : Q) (acc : list (string * Q)) (x : string) :
  In x (map fst (add_to_group k v acc)) <-> x = k \/ In x (map fst acc).
Proof.
  induction acc as [|[k' s] acc IH]; simpl.
  - intuition.
  - destruct (String_as_OT.compare k k') eqn:C; simpl.
    + apply compare_Eq in C. subst k'. intuition.
    + intuition.
    + rewrite IH. intuition.
Qed.

Lemma add_to_group_Forall (p : string -> Prop) (k : string) (v : Q)
  (acc : list (string * Q)) :
  p k -> Forall (fun e => p (fst e)) acc ->
  Forall (fun e => p (fst e)) (add_to_group k v acc).
Proof.
  intros Pk F. induction F as [|[k' s] acc Px F IH]; simpl.
  - constructor; [exact Pk | constructor].
  - destruct (String_as_OT.compare k k'); constructor; auto.
Qed.

Lemma add_to_group_sorted (k : string) (v : Q) (acc : list (string * Q)) :
  StronglySorted key_lt acc -> StronglySorted key_lt (add_to_group k v acc).
Proof.
  induction 1 as [|[k' s] acc S IH F]; simpl.
  - constructor; constructor.
  - destruct (String_as_OT.compare k k') eqn:C.
    + constructor; [exact S | exact F].
    + constructor; [constructor; assumption|].
      constructor; [exact C|].
      eapply Forall_impl; [|exact F]. intros e L.
      unfold key_lt in *. simpl in *. eapply lt_trans; [exact C | exact L].
    + constructor; [exact IH|].
      apply (add_to_group_Forall (fun x => String_as_OT.lt k' x)).
      * now apply compare_Gt.
      * exact F.
Qed.

Lemma total_of_above (k : string) (acc : list (string * Q)) :
  Forall (fun e => String_as_OT.lt k (fst e)) acc -> total_of k acc = 0%Q.
Proof.
  induction 1 as [|[k' s] acc L F IH]; simpl; [reflexivity|].
  simpl in L. now rewrite (lt_neq _ _ L).
Qed.

Lemma total_of_add_to_group (x k : string) (v : Q) (acc : list (string * Q)) :
  StronglySorted key_lt acc ->
  (total_of x (add_to_group k v acc)
   == total_of x acc + (if String.eqb x k then v else 0))%Q.
Proof.
  induction 1 as [|[k' s] acc S IH F]; simpl.
  - destruct (String.eqb x k); ring.
  - destruct (String_as_OT.compare k k') eqn:C; simpl.
    + apply compare_Eq in C. subst k'.
      destruct (String.eqb x k); ring.
    + destruct (String.eqb x k) eqn:E.
      * apply String.eqb_eq in E. subst x.
        rewrite (lt_neq _ _ C).
        rewrite total_of_above; [ring|].
        eapply Forall_impl; [|exact F]. intros e L.
        unfold key_lt in L. simpl in L. eapply lt_trans; [exact C | exact L].
      * ring.
    + destruct (String.eqb x k') eqn:E'.
      * apply String.eqb_eq in E'. subst x.
        apply compare_Gt in C. rewrite (lt_neq _ _ C). ring.
      * exact IH.
Qed.

Lemma total_of_In (k : string) (v : Q) (acc : list (string * Q)) :
  StronglySorted key_lt acc -> In (k, v) acc -> total_of k acc = v.
Proof.
  induction 1 as [|[k' s] acc S IH F]; simpl; [contradiction|].
  intros [E|I].
  - injection E as -> ->. now rewrite String.eqb_refl.
  - destruct (String.eqb k k') eqn:E.
    + apply String.eqb_eq in E. subst k'. exfalso.
      rewrite Forall_forall in F. specialize (F _ I).
      exact (StrictOrder_Irreflexive k F).
    + now apply IH.
Qed.

End GroupFacts.

Section GroupBy.
Variables key val : string.

Lemma fold_group_sorted (rs : list Row) (acc : list (string * Q)) :
  StronglySorted key_lt acc ->
  StronglySorted key_lt (fold_left (group_step key val) rs acc).
Proof.
  revert acc. induction rs as [|r rs IH]; intros acc S; simpl; [exact S|].
  apply IH. unfold group_step.
  destruct (group_key (get key r)); [now apply GroupFacts.add_to_group_sorted | exact S].
Qed.

Lemma fold_group_keys (rs : list Row) (acc : list (string * Q)) (x : string) :
  In x (map fst (fold_left (group_step key val) rs acc)) <->
  In x (map fst acc) \/ exists r, In r rs /\ group_key (get key r) = Some x.
Proof.
  revert acc. induction rs as [|r rs IH]; intros acc; simpl.
  - split; [now left | intros [I|[r [[] _]]]; exact I].
  - rewrite IH. unfold group_step.
    destruct (group_key (get key r)) as [k|] eqn:K.
    + rewrite GroupFacts.add_to_group_keys. split.
      * intros [[->|I]|[r' [I K']]]; [right; exists r; auto | now left |].
        right. exists r'. auto.
      * intros [I|[r' [[->|I] K']]].
        -- left. now right.
        -- left. left. congruence.
        -- right. exists r'. auto.
    + split.
      * intros [I|[r' [I K']]]; [now left | right; exists r'; auto].
      * intros [I|[r' [[->|I] K']]]; [now left | congruence | right; exists r'; auto].
Qed.

Lemma fold_group_total (rs : list Row) (acc : list (string * Q)) (x : string) :
  StronglySorted key_lt acc ->
  (total_of x (fold_left (group_step key val) rs acc)
   == total_of x acc
      + Qsum (map (fun r => as_float (get val r)) (filter (in_group key x) rs)))%Q.
Proof.
  revert acc. induction rs as [|r rs IH]; intros acc S; simpl.
  - ring.
  - assert (G : in_group key x r
                = match group_key (get key r) with
                  | Some k => String.eqb x k
                  | None => false
                  end).
    { unfold in_group. destruct (group_key (get key r)); [apply String.eqb_sym | reflexivity]. }
    rewrite G. unfold group_step at 2.
    destruct (group_key (get key r)) as [k|] eqn:K.
    + rewrite IH by now apply GroupFacts.add_to_group_sorted.
      rewrite GroupFacts.total_of_add_to_group by exact S.
      destruct (String.eqb x k); simpl; ring.
    + now rewrite IH.
Qed.

End GroupBy.

(** What [groupby(key)["revenue"].sum()] returns: one entry per key that
    occurs, in strictly ascending order of key, each with the sum of
    revenue over the rows of its group. *)
Lemma groupby_sum_spec (key : string) (df : DataFrame) (g : list (string * Q)) :
  groupby_sum key "revenue" df = Ok g ->
  StronglySorted key_lt g
  /\ (forall k, In k (map fst g) <->
                exists r, In r (rows df) /\ group_key (get key r) = Some k)
  /\ (forall k v, In (k, v) g -> (v == group_total key k (rows df))%Q).
Proof.
  unfold groupby_sum.
  destruct (has_col key df); [|discriminate].
  destruct (has_col "revenue" df); [|discriminate].
  intros [= <-]. split; [|split].
  - apply fold_group_sorted. constructor.
  - intros k. rewrite fold_group_keys. simpl. intuition.
  - intros k v I.
    rewrite <- (GroupFacts.total_of_In k v _ (fold_group_sorted key "revenue" (rows df) [] (SSorted_nil _)) I).
    rewrite fold_group_total by constructor. simpl. unfold group_total, revenue_of. ring.
Qed.

Lemma groupby_sum_ok (key : string) (df : DataFrame) :
  has_col key df = true -> has_col "revenue" df = true ->
  exists g, groupby_sum key "revenue" df = Ok g.
Proof. intros Hk Hr. unfold groupby_sum. rewrite Hk, Hr. eauto. Qed.

Lemma groupby_sum_missing (key val : string) (df : DataFrame) :
  has_col key df = false ->
  groupby_sum key val df = Raise ("KeyError: '" ++ key ++ "'").
Proof. intros Hk. unfold groupby_sum. now rewrite Hk. Qed.

Lemma insert_by_key_below (e : string * Q) (l : list (string * Q)) :
  Forall (key_lt e) l -> insert_by_key e l = e :: l.
Proof.
  destruct 1 as [|x l L F]; simpl; [reflexivity|].
  unfold key_lt in L. apply GroupFacts.compare_Lt in L. now rewrite L.
Qed.

(** [sort_index] has nothing to do on the result of a [groupby]. *)
Lemma sort_index_sorted (l : list (string * Q)) :
  StronglySorted key_lt l -> sort_index l = l.
Proof.
  induction 1 as [|e l S IH F]; [reflexivity|].
  unfold sort_index in *. cbn [fold_right]. rewrite IH.
  now apply insert_by_key_below.
Qed.

Lemma monthly_groupby (df : DataFrame) :
  monthly df = groupby_sum "year_month" "revenue" df.
Proof.
  unfold monthly.
  destruct (groupby_sum "year_month" "revenue" df) as [g| |] eqn:G; try reflexivity.
  cbn [bind]. f_equal. apply sort_index_sorted.
  now apply (groupby_sum_spec _ _ _ G).
Qed.

Lemma Ok_inj {A : Type} (a b : A) : Ok a = Ok b -> a = b.
Proof. congruence. Qed.

Lemma In_firstn {A : Type} (n : nat) (l : list A) (x : A) :
  In x (firstn n l) -> In x l.
Proof.
  intros I. rewrite <- (firstn_skipn n l). apply in_or_app. now left.
Qed.

Lemma StronglySorted_firstn {A : Type} (R : A -> A -> Prop) (n : nat) (l : list A) :
  StronglySorted R l -> StronglySorted R (firstn n l).
Proof.
  intros S. revert n. induction S as [|a l S IH F]; intros [|n]; simpl;
    try constructor.
  - apply IH.
  - rewrite Forall_forall in *. intros x I. apply F.
    eapply In_firstn, I.
Qed.

Section TopFive.
Context `{P : Pandas}.

(** What [groupby(key)["revenue"].sum().sort_values(ascending=False).head(5)]
    returns: at most five entries, each a key that occurs with the sum of
    revenue over its group, in descending order of that sum. *)
Lemma top5_by_spec (key : string) (df : DataFrame) (t : list (string * Q)) :
  top5_by key df = Ok t ->
  (List.length t <= 5)%nat
  /\ StronglySorted desc_by_value t
  /\ (forall k v, In (k, v) t ->
        (exists r, In r (rows df) /\ group_key (get key r) = Some k)
        /\ (v == group_total key k (rows df))%Q).
Proof.
  unfold top5_by.
  destruct (groupby_sum key "revenue" df) as [g| |] eqn:G; try discriminate.
  cbn [bind]. intros E. apply Ok_inj in E. subst t.
  destruct (groupby_sum_spec _ _ _ G) as (S & K & V).
  split; [|split].
  - apply firstn_le_length.
  - apply StronglySorted_firstn, sort_values_desc_sorted.
  - intros k v I. unfold head in I. apply In_firstn in I.
    apply (Permutation_in _ (sort_values_desc_perm g)) in I.
    split; [|now apply V].
    apply K. apply (in_map fst) in I. exact I.
Qed.

Lemma top5_by_ok (key : string) (df : DataFrame) :
  has_col key df = true -> has_col "revenue" df = true ->
  exists t, top5_by key df = Ok t.
Proof.
  intros Hk Hr. unfold top5_by.
  destruct (groupby_sum_ok key df Hk Hr) as [g ->]. cbn [bind]. eauto.
Qed.

Lemma top5_by_missing (key : string) (df : DataFrame) :
  has_col key df = false ->
  top5_by key df = Raise ("KeyError: '" ++ key ++ "'").
Proof.
  intros Hk. unfold top5_by. now rewrite (groupby_sum_missing _ _ _ Hk).
Qed.

End TopFive.

(** ** The two runtimes meet the laws *)

Lemma goes_before_true (b : bool) (e x : string * Q) :
  goes_before b e x = true -> desc_by_value e x.
Proof.
  unfold goes_before, desc_by_value. destruct b.
  - apply Qle_bool_imp_le.
  - intros H. apply negb_true_iff in H.
    destruct (Qlt_le_dec (snd x) (snd e)) as [L|L]; [now apply Qlt_le_weak|].
    apply Qle_bool_iff in L. congruence.
Qed.

Lemma goes_before_false (b : bool) (e x : string * Q) :
  goes_before b e x = false -> desc_by_value x e.
Proof.
  unfold goes_before, desc_by_value. destruct b.
  - intros H.
    destruct (Qlt_le_dec (snd e) (snd x)) as [L|L]; [now apply Qlt_le_weak|].
    apply Qle_bool_iff in L. congruence.
  - intros H. apply negb_false_iff in H. now apply Qle_bool_imp_le.
Qed.

Lemma insert_desc_perm (b : bool) (e : string * Q) (l : list (string * Q)) :
  Permutation (insert_desc b e l) (e :: l).
Proof.
  induction l as [|x l IH]; simpl; [reflexivity|].
  destruct (goes_before b e x); [reflexivity|].
  rewrite IH. apply perm_swap.
Qed.

Lemma sort_desc_perm (b : bool) (l : list (string * Q)) :
  Permutation (sort_desc b l) l.
Proof.
  induction l as [|e l IH]; simpl; [reflexivity|].
  rewrite insert_desc_perm. now constructor.
Qed.

Lemma insert_desc_sorted (b : bool) (e : string * Q) (l : list (string * Q)) :
  StronglySorted desc_by_value l -> StronglySorted desc_by_value (insert_desc b e l).
Proof.
  induction 1 as [|x l S IH F]; simpl.
  - constructor; constructor.
  - destruct (goes_before b e x) eqn:G.
    + apply goes_before_true in G.
      constructor; [now constructor|].
      constructor; [exact G|].
      eapply Forall_impl; [|exact F]. intros y Y.
      unfold desc_by_value in *. now apply (Qle_trans _ (snd x)).
    + apply goes_before_false in G.
      constructor; [exact IH|].
      rewrite Forall_forall in *. intros y I.
      apply (Permutation_in _ (insert_desc_perm b e l)) in I.
      destruct I as [<-|I]; [exact G | now apply F].
Qed.

Lemma sort_desc_sorted (b : bool) (l : list (string * Q)) :
  StronglySorted desc_by_value (sort_desc b l).
Proof.
  induction l as [|e l IH]; simpl; [constructor|].
  now apply insert_desc_sorted.
Qed.

Lemma valid_timestampb_valid (t : Timestamp) :
  valid_timestampb t = true -> valid_timestamp t.
Proof.
  unfold valid_timestampb, valid_timestamp. intros H.
  repeat (apply andb_prop in H; destruct H as [H ?]).
  assert (days_in_month (year t) (month t) <= 31)%Z.
  { unfold days_in_month.
    repeat match goal with |- context [if ?c then _ else _] => destruct c end; lia. }
  lia.
Qed.

Lemma datetime_of_cell_valid (s : list cell) (t : Timestamp) :
  In (Some t) (map datetime_of_cell s) -> valid_timestamp t.
Proof.
  intros I. apply in_map_iff in I. destruct I as [c [E _]].
  apply valid_timestampb_valid.
  destruct c as [|x|q|u]; simpl in E; try discriminate.
  - unfold parse_iso_date in E.
    destruct (negb _); [discriminate|].
    destruct (negb _); [discriminate|].
    destruct (number_of _); [|discriminate].
    destruct (number_of _); [|discriminate].
    destruct (number_of _); [|discriminate].
    match type of E with (if ?c then _ else _) = _ => destruct c eqn:V end;
      [|discriminate].
    now injection E as <-.
  - destruct (valid_timestampb u) eqn:V; [|discriminate].
    now injection E as <-.
Qed.

(** A runtime that reads ISO dates and plain decimals cell by cell and
    sorts stably. *)
Definition stable_pandas : Pandas := {|
  to_datetime := map datetime_of_cell;
  to_datetime_length := fun s => length_map datetime_of_cell s;
  to_datetime_valid := datetime_of_cell_valid;
  to_numeric := map numeric_of_cell;
  to_numeric_length := fun s => length_map numeric_of_cell s;
  sort_values_desc := sort_desc true;
  sort_values_desc_perm := sort_desc_perm true;
  sort_values_desc_sorted := sort_desc_sorted true
|}.

Lemma take_all (l : list (string * Q)) : take l (seq 0 (List.length l)) = l.
Proof.
  unfold take. induction l as [|x l IH]; [reflexivity|].
  cbn [List.length seq map nth]. f_equal.
  rewrite <- seq_shift, map_map. exact IH.
Qed.

Lemma is_reordering_perm (n : nat) (ix : list nat) :
  is_reordering n ix = true -> Permutation ix (seq 0 n).
Proof.
  unfold is_reordering. intros H. apply andb_prop in H. destruct H as [L I].
  apply Nat.eqb_eq in L. symmetry.
  apply NoDup_Permutation_bis;
    [apply seq_NoDup | rewrite length_seq; now rewrite L |].
  intros i Hi. rewrite forallb_forall in I. specialize (I i Hi).
  apply existsb_exists in I. destruct I as (j & J & E).
  apply Nat.eqb_eq in E. now subst.
Qed.

Lemma sorted_descb_sorted (l : list (string * Q)) :
  sorted_descb l = true -> StronglySorted desc_by_value l.
Proof.
  intros H. apply Sorted_StronglySorted.
  - intros x y z A B. unfold desc_by_value in *. now apply (Qle_trans _ (snd y)).
  - induction l as [|a [|b l] IH]; [constructor | repeat constructor |].
    cbn [sorted_descb] in H. apply andb_prop in H. destruct H as [H1 H2].
    constructor; [now apply IH|]. constructor. now apply Qle_bool_iff.
Qed.

Lemma numpy_sort_values_perm (l : list (string * Q)) :
  Permutation (numpy_sort_values l) l.
Proof.
  unfold numpy_sort_values.
  destruct (is_reordering _ _ && sorted_descb _) eqn:C; [|apply sort_desc_perm].
  apply andb_prop in C. destruct C as [C _].
  apply is_reordering_perm in C.
  apply (Permutation_map (fun i => nth i l (EmptyString, 0%Q))) in C.
  fold (take l (NumPy.nargsort_desc (map snd l))) in C.
  fold (take l (seq 0 (List.length l))) in C.
  now rewrite take_all in C.
Qed.

Lemma numpy_sort_values_sorted (l : list (string * Q)) :
  StronglySorted desc_by_value (numpy_sort_values l).
Proof.
  unfold numpy_sort_values.
  destruct (is_reordering _ _ && sorted_descb _) eqn:C; [|apply sort_desc_sorted].
  apply andb_prop in C. destruct C as [_ C]. now apply sorted_descb_sorted.
Qed.

(** The same runtime with the sort of numpy's default kind. *)
Definition numpy_pandas : Pandas := {|
  to_datetime := map datetime_of_cell;
  to_datetime_length := fun s => length_map datetime_of_cell s;
  to_datetime_valid := datetime_of_cell_valid;
  to_numeric := map numeric_of_cell;
  to_numeric_length := fun s => length_map numeric_of_cell s;
  sort_values_desc := numpy_sort_values;
  sort_values_desc_perm := numpy_sort_values_perm;
  sort_values_desc_sorted := numpy_sort_values_sorted
|}.

(** ** The cleaned frame *)

Section CleanedFrame.
Context `{P : Pandas}.

Lemma has_col_cleaned (c : string) (raw : DataFrame) :
  has_col c (cleaned raw)
  = has_col c (relabelled raw)
    || String.eqb c "date" || String.eqb c "total_items"
    || String.eqb c "total_cost" || String.eqb c "quantity"
    || String.eqb c "revenue" || String.eqb c "year_month".
Proof.
  unfold cleaned, add_year_month, converted.
  rewrite has_col_setcol.
  change (has_col c (dropna ?s ?d)) with (has_col c d).
  now rewrite !has_col_setcol.
Qed.

Lemma has_col_cleaned_revenue (raw : DataFrame) :
  has_col "revenue" (cleaned raw) = true.
Proof. rewrite has_col_cleaned. cbn. now rewrite !orb_true_r. Qed.

Lemma has_col_cleaned_year_month (raw : DataFrame) :
  has_col "year_month" (cleaned raw) = true.
Proof. rewrite has_col_cleaned. cbn. now rewrite !orb_true_r. Qed.

Lemma has_col_cleaned_product (raw : DataFrame) :
  has_col "product" (cleaned raw) = has_col "product" (relabelled raw).
Proof. rewrite has_col_cleaned. cbn. now rewrite !orb_false_r. Qed.

Lemma has_col_cleaned_city (raw : DataFrame) :
  has_col "city" (cleaned raw) = has_col "city" (relabelled raw).
Proof. rewrite has_col_cleaned. cbn. now rewrite !orb_false_r. Qed.

Lemma load_and_clean_data_Ok (raw df : DataFrame) :
  load_and_clean_data raw = Ok df ->
  df = cleaned raw /\ required_present raw.
Proof.
  rewrite load_and_clean_data_outcome. unfold missing_message.
  destruct (has_col "date" (relabelled raw)) eqn:Hd; [|discriminate].
  destruct (has_col "total_items" (relabelled raw)) eqn:Hi; [|discriminate].
  destruct (has_col "total_cost" (relabelled raw)) eqn:Hc; [|discriminate].
  cbn [negb]. intros E. apply Ok_inj in E. split; [now symmetry|].
  apply required_present_has_col. auto.
Qed.

End CleanedFrame.

Lemma normalize_rows_clean (rs : list Row) (ds : list (option Timestamp))
  (qs cs : list (option Q)) :
  (forall d, In (Some d) ds -> valid_timestamp d) ->
  Forall (fun t => Spec.period_key t = period_str (Spec.date t)
                   /\ valid_timestamp (Spec.date t))
         (Spec.normalize_rows rs ds qs cs).
Proof.
  revert ds qs cs. induction rs as [|r rs IH]; intros [|d ds] [|q qs] [|c cs] V;
    simpl; try constructor.
  assert (V' : forall d', In (Some d') ds -> valid_timestamp d')
    by (intros d' I; apply V; now right).
  unfold Spec.normalize_row.
  destruct d as [d|]; [|now apply IH].
  destruct q as [q|]; [|now apply IH].
  destruct c as [c|]; [|now apply IH].
  constructor; [|now apply IH].
  simpl. split; [reflexivity | apply V; now left].
Qed.

Lemma map_Some_Forall {A B : Type} (f : A -> option B) (p : B -> Prop)
  (l : list A) (l' : list B) :
  map f l = map Some l' -> Forall p l' ->
  Forall (fun x => exists y, f x = Some y /\ p y) l.
Proof.
  revert l'. induction l as [|x l IH]; intros [|y l'] E F; try discriminate;
    constructor.
  - simpl in E. injection E as E _. inversion F; subst. eauto.
  - simpl in E. injection E as _ E. inversion F; subst. eauto.
Qed.

Lemma cleaned_rows_clean `{P : Pandas} (raw : DataFrame) :
  Forall clean_row (rows (cleaned raw)).
Proof.
  eapply map_Some_Forall; [apply cleaned_transactions|].
  apply normalize_rows_clean, to_datetime_valid.
Qed.

(** ** Sums and means *)

Lemma transaction_of_Some (r : Row) (t : Spec.Transaction) :
  transaction_of r = Some t ->
  get "date" r = Ts (Spec.date t)
  /\ get "quantity" r = Num (Spec.quantity t)
  /\ get "revenue" r = Num (Spec.revenue t)
  /\ get "year_month" r = Txt (Spec.period_key t)
  /\ get "product" r = Spec.product t
  /\ get "city" r = Spec.city t.
Proof.
  unfold transaction_of.
  destruct (get "date" r); try discriminate.
  destruct (get "quantity" r); try discriminate.
  destruct (get "revenue" r); try discriminate.
  destruct (get "year_month" r); try discriminate.
  intros E. injection E as <-. simpl. repeat split.
Qed.

Lemma series_sum_from (s : list cell) (a : Q) :
  (fold_left (fun acc c => match c with Num q => acc + q | _ => acc end) s a
   == a + Qsum (map as_float s))%Q.
Proof.
  revert a. induction s as [|c s IH]; intros a; simpl.
  - ring.
  - rewrite IH. destruct c; simpl; ring.
Qed.

Lemma series_sum_Qsum (s : list cell) :
  (series_sum s == Qsum (map as_float s))%Q.
Proof. unfold series_sum. rewrite series_sum_from. ring. Qed.

Lemma transactions_columns (rs : list Row) (ts : list Spec.Transaction) :
  map transaction_of rs = map Some ts ->
  map revenue_of rs = map Spec.revenue ts
  /\ map quantity_of rs = map Spec.quantity ts
  /\ List.length rs = List.length ts
  /\ series_count (map (get "revenue") rs) = List.length ts.
Proof.
  revert ts. induction rs as [|r rs IH]; intros [|t ts] E; try discriminate.
  - repeat split.
  - simpl in E. injection E as E E'.
    destruct (IH ts E') as (Hr & Hq & Hl & Hc).
    destruct (transaction_of_Some r t E) as (_ & Q & R & _).
    unfold series_count in *. simpl. unfold revenue_of, quantity_of.
    rewrite R, Q. simpl. rewrite Hl, Hc.
    unfold revenue_of in Hr. unfold quantity_of in Hq. rewrite Hr, Hq.
    repeat split.
Qed.

(** ** The KPI summary *)

Section Summary.
Context `{P : Pandas}.

Lemma compute_kpis_Ok (df : DataFrame) (k : KPIs) :
  compute_kpis df = Ok k ->
  total_revenue k = series_sum (getcol "revenue" df)
  /\ total_transactions k = List.length (rows df)
  /\ avg_order_value k = series_mean (getcol "revenue" df)
  /\ total_items_sold k = series_sum (getcol "quantity" df)
  /\ top5_by "product" df = Ok (revenue_by_product k)
  /\ (if has_col "city" df
      then exists c, top5_by "city" df = Ok c /\ revenue_by_city k = Some c
      else revenue_by_city k = None)
  /\ monthly df = Ok (revenue_by_month k).
Proof.
  unfold compute_kpis.
  destruct (top5_by "product" df) as [tp| |]; try discriminate. cbn [bind].
  destruct (has_col "city" df).
  - destruct (top5_by "city" df) as [tc| |]; try discriminate. cbn [bind].
    destruct (monthly df) as [m| |]; try discriminate. cbn [bind].
    intros E. apply Ok_inj in E. subst k. cbn. repeat split. eauto.
  - cbn [bind].
    destruct (monthly df) as [m| |]; try discriminate. cbn [bind].
    intros E. apply Ok_inj in E. subst k. cbn. repeat split.
Qed.

(** On a cleaned frame the summary is computed as soon as the frame has a
    product column. *)
Lemma compute_kpis_cleaned (raw : DataFrame) :
  has_col "product" (relabelled raw) = true ->
  exists k, compute_kpis (cleaned raw) = Ok k.
Proof.
  intros Hp. unfold compute_kpis.
  destruct (top5_by_ok "product" (cleaned raw)) as [tp ->];
    [now rewrite has_col_cleaned_product | apply has_col_cleaned_revenue |].
  cbn [bind].
  assert (M : exists m, monthly (cleaned raw) = Ok m).
  { rewrite monthly_groupby. apply groupby_sum_ok;
      [apply has_col_cleaned_year_month | apply has_col_cleaned_revenue]. }
  destruct M as [m M].
  destruct (has_col "city" (cleaned raw)) eqn:Hc.
  - destruct (top5_by_ok "city" (cleaned raw)) as [tc ->];
      [exact Hc | apply has_col_cleaned_revenue |].
    cbn [bind]. rewrite M. cbn [bind]. eauto.
  - cbn [bind]. rewrite M. cbn [bind]. eauto.
Qed.

(** Without a product column line 68 raises. *)
Lemma compute_kpis_no_product (df : DataFrame) :
  has_col "product" df = false ->
  compute_kpis df = Raise "KeyError: 'product'".
Proof.
  intros Hp. unfold compute_kpis. now rewrite (top5_by_missing _ _ Hp).
Qed.

End Summary.

(** ** Period keys *)

Module PeriodFacts.

Lemma code_digit (n : Z) : N_of_ascii (digit n) = Z.to_N (48 + n mod 10).
Proof.
  unfold digit. apply N_ascii_embedding.
  assert (0 <= n mod 10 < 10)%Z by (apply Z.mod_pos_bound; lia). lia.
Qed.

Lemma digit_inj (a b : Z) : digit a = digit b -> (a mod 10 = b mod 10)%Z.
Proof.
  intros E. apply (f_equal N_of_ascii) in E. rewrite !code_digit in E.
  assert (0 <= a mod 10 < 10)%Z by (apply Z.mod_pos_bound; lia).
  assert (0 <= b mod 10 < 10)%Z by (apply Z.mod_pos_bound; lia).
  lia.
Qed.

Lemma period_str_length (t : Timestamp) : String.length (period_str t) = 7%nat.
Proof. reflexivity. Qed.

Lemma pad4_inj (a b : Z) :
  (0 <= a < 10000)%Z -> (0 <= b < 10000)%Z -> pad4 a = pad4 b -> a = b.
Proof.
  intros Ha Hb E. unfold pad4, pad2 in E.
  injection E as E3 E2 E1 E0.
  apply digit_inj in E3, E2, E1, E0.
  revert E3 E2 E1 E0. Z.div_mod_to_equations. lia.
Qed.

Lemma pad2_inj (a b : Z) :
  (0 <= a < 100)%Z -> (0 <= b < 100)%Z -> pad2 a = pad2 b -> a = b.
Proof.
  intros Ha Hb E. unfold pad2 in E.
  injection E as E1 E0.
  apply digit_inj in E1, E0.
  revert E1 E0. Z.div_mod_to_equations. lia.
Qed.

(** The period key is the calendar month: two timestamps have the same key
    exactly when they have the same year and month. *)
Lemma period_str_same_month (t t' : Timestamp) :
  valid_timestamp t -> valid_timestamp t' ->
  (period_str t = period_str t' <-> year t = year t' /\ month t = month t').
Proof.
  intros (Y & M & _) (Y' & M' & _). split.
  - unfold period_str. intros E.
    assert (E4 : pad4 (year t) = pad4 (year t')
                 /\ pad2 (month t) = pad2 (month t')).
    { unfold pad4, pad2 in *. cbn in E. injection E as -> -> -> -> -> ->.
      split; reflexivity. }
    destruct E4 as [Ey Em]. split.
    + apply pad4_inj; (lia || exact Ey).
    + apply pad2_inj; (lia || exact Em).
  - intros [Ey Em]. unfold period_str. now rewrite Ey, Em.
Qed.

End PeriodFacts.

Module PeriodOrder.
Import PeriodFacts.

Lemma compare_digit (a b : Z) :
  Ascii_as_OT.compare (digit a) (digit b) = (a mod 10 ?= b mod 10)%Z.
Proof.
  unfold Ascii_as_OT.compare. rewrite !code_digit.
  assert (0 <= a mod 10 < 10)%Z by (apply Z.mod_pos_bound; lia).
  assert (0 <= b mod 10 < 10)%Z by (apply Z.mod_pos_bound; lia).
  change N_as_OT.compare with N.compare.
  rewrite Z2N.inj_compare by lia.
  apply Z.add_compare_mono_l.
Qed.

Lemma four_digits (y : Z) :
  (0 <= y < 10000)%Z ->
  (y = 1000 * ((y / 1000) mod 10) + 100 * ((y / 100) mod 10)
       + 10 * ((y / 10) mod 10) + y mod 10)%Z.
Proof. intros B. Z.div_mod_to_equations. lia. Qed.

Lemma two_digits (m : Z) :
  (0 <= m < 100)%Z -> (m = 10 * ((m / 10) mod 10) + m mod 10)%Z.
Proof. intros B. Z.div_mod_to_equations. lia. Qed.

Lemma digit_bound (n : Z) : (0 <= n mod 10 <= 9)%Z.
Proof. assert (0 <= n mod 10 < 10)%Z by (apply Z.mod_pos_bound; lia). lia. Qed.

Ltac split_digit :=
  match goal with
  | |- context [(?a ?= ?b)%Z] => destruct (Z.compare_spec a b)
  end.

(** Keys compare as the months do: the order of the text is the order of
    the calendar. *)
Lemma period_str_chronological (t t' : Timestamp) :
  valid_timestamp t -> valid_timestamp t' ->
  (String_as_OT.lt (period_str t) (period_str t') <-> month_before t t').
Proof.
  intros (Y & M & _) (Y' & M' & _).
  unfold String_as_OT.lt, period_str, pad4, pad2, month_before.
  cbn [append String_as_OT.compare].
  rewrite !compare_digit.
  change (Ascii_as_OT.compare "-" "-") with Eq. cbv iota.
  pose proof (four_digits (year t) ltac:(lia)) as Dy.
  pose proof (four_digits (year t') ltac:(lia)) as Dy'.
  pose proof (two_digits (month t) ltac:(lia)) as Dm.
  pose proof (two_digits (month t') ltac:(lia)) as Dm'.
  pose proof (digit_bound (year t / 1000)).
  pose proof (digit_bound (year t / 100)).
  pose proof (digit_bound (year t / 10)).
  pose proof (digit_bound (year t)).
  pose proof (digit_bound (year t' / 1000)).
  pose proof (digit_bound (year t' / 100)).
  pose proof (digit_bound (year t' / 10)).
  pose proof (digit_bound (year t')).
  pose proof (digit_bound (month t / 10)).
  pose proof (digit_bound (month t)).
  pose proof (digit_bound (month t' / 10)).
  pose proof (digit_bound (month t')).
  generalize dependent ((year t / 1000) mod 10)%Z.
  generalize dependent ((year t / 100) mod 10)%Z.
  generalize dependent ((year t / 10) mod 10)%Z.
  generalize dependent (year t mod 10)%Z.
  generalize dependent ((year t' / 1000) mod 10)%Z.
  generalize dependent ((year t' / 100) mod 10)%Z.
  generalize dependent ((year t' / 10) mod 10)%Z.
  generalize dependent (year t' mod 10)%Z.
  generalize dependent ((month t / 10) mod 10)%Z.
  generalize dependent (month t mod 10)%Z.
  generalize dependent ((month t' / 10) mod 10)%Z.
  generalize dependent (month t' mod 10)%Z.
  intros.
  repeat split_digit;
    (split; intros C;
     first [reflexivity | discriminate C | lia | exfalso; lia]).
Qed.

End PeriodOrder.

(** ** Filtered frames *)

Lemma clean_row_fields (r : Row) :
  clean_row r ->
  exists t q c,
    get "date" r = Ts t /\ valid_timestamp t
    /\ get "year_month" r = Txt (period_str t)
    /\ get "quantity" r = Num q /\ get "revenue" r = Num c.
Proof.
  intros (tr & T & K & V).
  destruct (transaction_of_Some r tr T) as (D & Q & R & Y & _).
  exists (Spec.date tr), (Spec.quantity tr), (Spec.revenue tr).
  rewrite <- K. auto.
Qed.

Lemma apply_filter_columns (sel : cell) (df : DataFrame) :
  columns (apply_filter sel df) = columns df.
Proof. unfold apply_filter. destruct (_ && _); reflexivity. Qed.

Lemma apply_filter_has_col (c : string) (sel : cell) (df : DataFrame) :
  has_col c (apply_filter sel df) = has_col c df.
Proof. unfold has_col. now rewrite apply_filter_columns. Qed.

Lemma apply_filter_rows (sel : cell) (df : DataFrame) (r : Row) :
  In r (rows (apply_filter sel df)) -> In r (rows df).
Proof.
  unfold apply_filter. destruct (_ && _); [|trivial].
  unfold filter_city. cbn [rows]. intros I. now apply filter_In in I.
Qed.

Lemma in_group_year_month (k : string) (r : Row) :
  clean_row r -> in_group "year_month" k r = in_month k r.
Proof.
  intros C. destruct (clean_row_fields r C) as (t & _ & _ & D & _ & Y & _).
  unfold in_group, in_month. now rewrite Y, D.
Qed.

Lemma filter_ext_Forall {A : Type} (f g : A -> bool) (p : A -> Prop) (l : list A) :
  Forall p l -> (forall x, p x -> f x = g x) -> filter f l = filter g l.
Proof.
  intros F E. induction F as [|x l Px F IH]; simpl; [reflexivity|].
  now rewrite (E x Px), IH.
Qed.

(** ** Top five *)

Lemma StronglySorted_app_inv {A : Type} (R : A -> A -> Prop) (l1 l2 : list A) :
  StronglySorted R (l1 ++ l2) ->
  forall a b, In a l1 -> In b l2 -> R a b.
Proof.
  induction l1 as [|x l1 IH]; simpl; intros S a b Ia Ib; [contradiction|].
  inversion S as [|? ? S' F]; subst. destruct Ia as [<-|Ia].
  - rewrite Forall_forall in F. apply F, in_or_app. now right.
  - now apply IH.
Qed.

Lemma In_fst_exists {A B : Type} (k : A) (l : list (A * B)) :
  In k (map fst l) -> exists v, In (k, v) l.
Proof.
  intros I. apply in_map_iff in I. destruct I as [[k' v] [E I]].
  simpl in E. subst k'. eauto.
Qed.

Lemma skipn_nonempty_length {A : Type} (n : nat) (l : list A) (x : A) :
  In x (skipn n l) -> List.length (firstn n l) = n.
Proof.
  intros I. rewrite length_firstn.
  assert (List.length (skipn n l) <> 0)%nat
    by (destruct (skipn n l); [contradiction | discriminate]).
  rewrite length_skipn in *. lia.
Qed.

Lemma top5_by_top_five `{P : Pandas} (key : string) (df : DataFrame)
  (t : list (string * Q)) :
  top5_by key df = Ok t -> top_five_of key df t.
Proof.
  intros T. destruct (top5_by_spec key df t T) as (L & S & V).
  split; [exact L|]. split; [exact S|]. split; [exact V|].
  unfold top5_by in T.
  destruct (groupby_sum key "revenue" df) as [g| |] eqn:G; try discriminate.
  cbn [bind] in T. apply Ok_inj in T. subst t.
  destruct (groupby_sum_spec _ _ _ G) as (_ & K & W).
  intros r k I Gk.
  assert (Ik : In k (map fst g)) by (apply K; eauto).
  apply In_fst_exists in Ik. destruct Ik as [v Iv].
  pose proof (W k v Iv) as Ev.
  apply (Permutation_in _ (Permutation_sym (sort_values_desc_perm g))) in Iv.
  rewrite <- (firstn_skipn 5 (sort_values_desc g)) in Iv.
  apply in_app_or in Iv. destruct Iv as [Iv|Iv].
  - left. unfold head. apply (in_map fst) in Iv. exact Iv.
  - right. split; [unfold head; eapply skipn_nonempty_length; exact Iv|].
    intros e Ie. rewrite <- Ev.
    pose proof (sort_values_desc_sorted g) as Sd.
    rewrite <- (firstn_skipn 5 (sort_values_desc g)) in Sd.
    exact (StronglySorted_app_inv _ _ _ Sd e (k, v) Ie Iv).
Qed.

(** With a stable sort, entries of equal value keep the order of the
    grouping. *)
Lemma insert_desc_stable (e : string * Q) (l : list (string * Q)) :
  StronglySorted tie_order l -> Forall (key_lt e) l ->
  StronglySorted tie_order (insert_desc true e l).
Proof.
  induction 1 as [|x l S IH F]; intros K; cbn [insert_desc].
  - constructor; constructor.
  - inversion K as [|? ? Kx Kl]; subst.
    destruct (goes_before true e x) eqn:G.
    + constructor; [now constructor|].
      eapply Forall_impl; [|exact K]. intros y Y _. exact Y.
    + constructor; [now apply IH|].
      rewrite Forall_forall in *. intros y I.
      apply (Permutation_in _ (insert_desc_perm true e l)) in I.
      destruct I as [<-|I]; [|now apply F].
      intros Tie. exfalso. unfold goes_before in G.
      assert (Qle_bool (snd x) (snd e) = true)
        by (apply Qle_bool_iff; rewrite Tie; apply Qle_refl).
      congruence.
Qed.

Lemma sort_desc_stable (l : list (string * Q)) :
  StronglySorted key_lt l -> ties_in_group_order (sort_desc true l).
Proof.
  unfold ties_in_group_order.
  induction 1 as [|e l S IH F]; simpl; [constructor|].
  apply insert_desc_stable; [exact IH|].
  rewrite Forall_forall in *. intros y I.
  apply (Permutation_in _ (sort_desc_perm true l)) in I. now apply F.
Qed.

Lemma top5_by_stable (key : string) (df : DataFrame) (t : list (string * Q)) :
  @top5_by stable_pandas key df = Ok t -> ties_in_group_order t.
Proof.
  unfold top5_by.
  destruct (groupby_sum key "revenue" df) as [g| |] eqn:G; try discriminate.
  cbn [bind]. intros T. apply Ok_inj in T. subst t.
  apply StronglySorted_firstn. cbn [sort_values_desc stable_pandas].
  apply sort_desc_stable. now apply (groupby_sum_spec _ _ _ G).
Qed.

(** ** The script *)

Lemma py_eq_Txt (c : cell) (x : string) :
  py_eq c (Txt x) = true <-> c = Txt x.
Proof.
  destruct c as [|s|q|t]; simpl; split; try discriminate.
  - intros E. apply String.eqb_eq in E. now subst.
  - intros [= ->]. apply String.eqb_refl.
Qed.

Lemma filter_filter {A : Type} (f g : A -> bool) (l : list A) :
  filter g (filter f l) = filter (fun x => f x && g x) l.
Proof.
  induction l as [|x l IH]; simpl; [reflexivity|].
  destruct (f x); simpl; [destruct (g x); now rewrite IH | exact IH].
Qed.

Section Script.
Context `{P : Pandas}.

(** The values a run of the script leaves behind. *)
Lemma script_Ok (raw : DataFrame) (choice : nat) (d : Dashboard) :
  script raw choice = Ok d ->
  load_and_clean_data raw = Ok (df_clean d)
  /\ compute_kpis (df_clean d) = Ok (kpis d)
  /\ kpi_summary_text d = build_kpi_summary_text (kpis d)
  /\ (exists cities, city_options (df_clean d) = Ok cities
                     /\ selected_city d = nth choice cities All)
  /\ df_filtered d = apply_filter (selected_city d) (df_clean d)
  /\ monthly (df_filtered d) = Ok (filtered_revenue_by_month d)
  /\ top5_by "product" (df_filtered d) = Ok (filtered_revenue_by_product d).
Proof.
  unfold script.
  destruct (load_and_clean_data raw) as [dfc| |]; try discriminate. cbn [bind].
  destruct (compute_kpis dfc) as [k| |] eqn:K; try discriminate. cbn [bind].
  destruct (city_options dfc) as [cs| |] eqn:C; try discriminate. cbn [bind].
  destruct (monthly _) as [m| |] eqn:M; try discriminate. cbn [bind].
  destruct (top5_by "product" _) as [t| |] eqn:T; try discriminate. cbn [bind].
  intros E. apply Ok_inj in E. subst d. cbn.
  repeat split; try assumption. eauto.
Qed.

(** A selection other than "All" comes from a city column. *)
Lemma selected_city_has_col (df : DataFrame) (cities : list cell) (choice : nat)
  (x : string) :
  city_options df = Ok cities -> nth choice cities All = Txt x ->
  x <> "All" -> has_col "city" df = true.
Proof.
  unfold city_options. destruct (has_col "city" df); [reflexivity|].
  intros E. apply Ok_inj in E. subst cities.
  destruct choice as [|[|n]]; simpl; intros [= <-]; congruence.
Qed.

Lemma apply_filter_city (df : DataFrame) (x : string) :
  x <> "All" -> has_col "city" df = true ->
  apply_filter (Txt x) df = filter_city (Txt x) df.
Proof.
  intros N H. unfold apply_filter. rewrite H.
  assert (E : py_eq (Txt x) All = false).
  { simpl. now apply String.eqb_neq. }
  now rewrite E.
Qed.

End Script.

(** ** The options of the select box *)

Lemma same_value_Txt (x : string) (c : cell) :
  same_value (Txt x) c = true -> c = Txt x.
Proof.
  unfold same_value. simpl. rewrite orb_false_r.
  destruct c; try discriminate. intros E. apply String.eqb_eq in E. now subst.
Qed.

Lemma unique_from_Txt (x : string) (s seen : list cell) :
  In (Txt x) s -> In (Txt x) seen \/ In (Txt x) (unique_from seen s).
Proof.
  revert seen. induction s as [|c s IH]; intros seen; simpl; [contradiction|].
  intros [->|I].
  - destruct (existsb (same_value (Txt x)) seen) eqn:E.
    + left. apply existsb_exists in E. destruct E as [c [I E]].
      apply same_value_Txt in E. now subst.
    + right. now left.
  - destruct (existsb (same_value c) seen).
    + now apply IH.
    + destruct (IH (c :: seen) I) as [[->|I']|I'].
      * right. now left.
      * now left.
      * right. now right.
Qed.

Lemma unique_from_text (s seen : list cell) :
  forallb is_text s = true -> forallb is_text (unique_from seen s) = true.
Proof.
  revert seen. induction s as [|c s IH]; intros seen; simpl; [reflexivity|].
  intros H. apply andb_prop in H. destruct H as [Hc Hs].
  destruct (existsb (same_value c) seen); simpl; [now apply IH|].
  rewrite Hc. now apply IH.
Qed.

Lemma insert_str_In (x y : string) (l : list string) :
  In x (insert_str y l) <-> x = y \/ In x l.
Proof.
  induction l as [|z l IH]; simpl; [intuition|].
  destruct (String_as_OT.compare y z); simpl; rewrite ?IH; intuition.
Qed.

Lemma sorted_strings_In (x : string) (l : list string) :
  In x (fold_right insert_str [] l) <-> In x l.
Proof.
  induction l as [|y l IH]; simpl; [reflexivity|].
  rewrite insert_str_In, IH. intuition.
Qed.

Lemma texts_of_In (x : string) (l : list cell) :
  In (Txt x) l -> In x (texts_of l).
Proof.
  intros I. unfold texts_of. apply in_flat_map. exists (Txt x).
  split; [exact I | now left].
Qed.

(** With a city in every row, the box offers "All" and every city. *)
Lemma city_options_all_text (df : DataFrame) :
  has_col "city" df = true ->
  forallb is_text (getcol "city" df) = true ->
  exists cs, city_options df = Ok (All :: cs)
             /\ forall x, In (Txt x) (getcol "city" df) -> In (Txt x) cs.
Proof.
  intros H T. unfold city_options, py_sorted. rewrite H.
  unfold unique. rewrite (unique_from_text _ [] T). cbn [bind].
  eexists. split; [reflexivity|].
  intros x I. apply in_map, sorted_strings_In, texts_of_In.
  destruct (unique_from_Txt x _ [] I) as [[]|I']. exact I'.
Qed.

Lemma city_options_no_city (df : DataFrame) :
  has_col "city" df = false -> city_options df = Ok [All].
Proof. intros H. unfold city_options. now rewrite H. Qed.

Section ScriptRuns.
Context `{P : Pandas}.

(** The script runs to the layout whenever the three required columns and
    the product column are there and the city options can be listed. *)
Lemma script_runs (raw : DataFrame) (choice : nat) (cities : list cell) :
  required_present raw ->
  has_col "product" (relabelled raw) = true ->
  city_options (cleaned raw) = Ok cities ->
  exists d, script raw choice = Ok d
            /\ selected_city d = nth choice cities All.
Proof.
  intros R Hp C. unfold script.
  rewrite (load_and_clean_data_cleaned raw R). cbn [bind].
  destruct (compute_kpis_cleaned raw Hp) as [k ->]. cbn [bind].
  rewrite C. cbn [bind].
  set (sel := nth choice cities All).
  destruct (groupby_sum_ok "year_month" (apply_filter sel (cleaned raw)))
    as [m M].
  { rewrite apply_filter_has_col. apply has_col_cleaned_year_month. }
  { rewrite apply_filter_has_col. apply has_col_cleaned_revenue. }
  rewrite monthly_groupby, M. cbn [bind].
  destruct (top5_by_ok "product" (apply_filter sel (cleaned raw))) as [t ->].
  { rewrite apply_filter_has_col. now rewrite has_col_cleaned_product. }
  { rewrite apply_filter_has_col. apply has_col_cleaned_revenue. }
  cbn [bind]. eexists. split; reflexivity.
Qed.

End ScriptRuns.

(** ** Formatted numbers *)

Module FormatFacts.

Lemma uint_digits_all_digits (d : Decimal.uint) :
  all_digits (uint_digits d) = true.
Proof.
  unfold all_digits. induction d; simpl; try reflexivity; exact IHd.
Qed.

Lemma uint_digits_nonempty (d : Decimal.uint) :
  d <> Decimal.Nil -> uint_digits d <> EmptyString.
Proof. destruct d; simpl; congruence. Qed.

Lemma N_to_uint_nonnil (n : N) : N.to_uint n <> Decimal.Nil.
Proof.
  destruct n; simpl; [discriminate | apply DecimalPos.Unsigned.to_uint_nonnil].
Qed.

Lemma decimal_all_digits (n : Z) : all_digits (decimal n) = true.
Proof. apply uint_digits_all_digits. Qed.

Lemma decimal_nonempty (n : Z) : decimal n <> EmptyString.
Proof. apply uint_digits_nonempty, N_to_uint_nonnil. Qed.

Lemma grouped_rev_group3_rev (n : nat) (l : list ascii) :
  (List.length l <= n)%nat -> l <> [] -> forallb is_digit l = true ->
  grouped_rev (group3_rev l) = true.
Proof.
  revert l. induction n as [|n IH]; intros l L N D.
  - destruct l; [congruence | simpl in L; lia].
  - destruct l as [|a [|b [|c [|d more]]]]; try congruence; try exact D.
    change (group3_rev (a :: b :: c :: d :: more))
      with (a :: b :: c :: ","%char :: group3_rev (d :: more)).
    remember (group3_rev (d :: more)) as g eqn:G.
    cbn [grouped_rev]. subst g.
    cbn [forallb] in D.
    apply andb_prop in D. destruct D as [Da D].
    apply andb_prop in D. destruct D as [Db D].
    apply andb_prop in D. destruct D as [Dc D].
    rewrite Da, Db, Dc. cbn [andb Ascii.eqb Bool.eqb].
    apply IH; [simpl in *; lia | discriminate | exact D].
Qed.

Lemma forallb_rev {A : Type} (f : A -> bool) (l : list A) :
  forallb f (rev l) = forallb f l.
Proof.
  induction l as [|x l IH]; simpl; [reflexivity|].
  rewrite forallb_app, IH. simpl. rewrite andb_true_r. apply andb_comm.
Qed.

Lemma group3_grouped (s : string) :
  s <> EmptyString -> all_digits s = true -> thousands_grouped (group3 s) = true.
Proof.
  intros N D. unfold thousands_grouped, group3.
  rewrite list_ascii_of_string_of_list_ascii, rev_involutive.
  apply (grouped_rev_group3_rev (List.length (rev (list_ascii_of_string s)))).
  - lia.
  - destruct s; [congruence|]. simpl. intros E.
    apply (f_equal (@List.length ascii)) in E. rewrite length_app in E.
    simpl in E. lia.
  - rewrite forallb_rev. exact D.
Qed.

Lemma group3_decimal_grouped (n : Z) :
  thousands_grouped (group3 (decimal n)) = true.
Proof.
  apply group3_grouped; [apply decimal_nonempty | apply decimal_all_digits].
Qed.

Lemma is_digit_digit (n : Z) : is_digit (digit n) = true.
Proof.
  unfold is_digit. rewrite PeriodFacts.code_digit.
  assert (0 <= n mod 10 < 10)%Z by (apply Z.mod_pos_bound; lia).
  apply andb_true_intro. split; apply N.leb_le; lia.
Qed.

(** An amount: sign, integer part grouped by thousands, point, two
    digits. *)
Lemma format_2f_shape (q : Q) :
  exists whole d1 d2,
    format_2f q = (sign_of q ++ whole ++ "." ++ String d1 (String d2 ""))%string
    /\ thousands_grouped whole = true
    /\ is_digit d1 = true /\ is_digit d2 = true.
Proof.
  unfold format_2f, pad2.
  eexists. eexists. eexists. split; [reflexivity|].
  split; [apply group3_decimal_grouped|].
  split; apply is_digit_digit.
Qed.

Lemma format_0f_shape (q : Q) :
  exists whole,
    format_0f q = (sign_of q ++ whole)%string /\ thousands_grouped whole = true.
Proof.
  unfold format_0f. eexists. split; [reflexivity|].
  apply group3_decimal_grouped.
Qed.

End FormatFacts.

Lemma append_assoc (a b c : string) :
  ((a ++ b) ++ c = a ++ b ++ c)%string.
Proof. induction a as [|x a IH]; simpl; [reflexivity | now rewrite IH]. Qed.

Lemma item_line_shape (k : KPIs) (e : string * Q) : line_shape k (item_line e).
Proof.
  destruct (FormatFacts.format_2f_shape (snd e)) as (w & d1 & d2 & E & G & D1 & D2).
  unfold item_line.
  replace ("- " ++ fst e ++ ": $" ++ format_2f (snd e))%string
    with (("- " ++ fst e ++ ": ") ++ "$" ++ format_2f (snd e))%string.
  - now apply (amount_line k ("- " ++ fst e ++ ": ")%string (snd e) w d1 d2).
  - cbn [append]. f_equal. f_equal. now rewrite append_assoc.
Qed.

Lemma item_lines_shape (k : KPIs) (l : list (string * Q)) (line : string) :
  In line (map item_line l) -> line_shape k line.
Proof.
  intros I. apply in_map_iff in I. destruct I as [e [<- _]].
  apply item_line_shape.
Qed.

Lemma summary_lines_shape (k : KPIs) (line : string) :
  In line (summary_lines k) -> line_shape k line.
Proof.
  unfold summary_lines. intros I.
  repeat (apply in_app_or in I; destruct I as [I|I]).
  - destruct I as [<-|[<-|[<-|[<-|[<-|[]]]]]].
    + apply title_line. now left.
    + destruct (FormatFacts.format_2f_shape (total_revenue k))
        as (w & d1 & d2 & E & G & D1 & D2).
      now apply (amount_line k "Total revenue: " (total_revenue k) w d1 d2).
    + apply transactions_count_line;
        [reflexivity | apply FormatFacts.decimal_all_digits].
    + destruct (avg_order_value k) as [q|] eqn:A.
      * destruct (FormatFacts.format_2f_shape q) as (w & d1 & d2 & E & G & D1 & D2).
        now apply (amount_line k "Average order value: " q w d1 d2).
      * now apply nan_line.
    + destruct (FormatFacts.format_0f_shape (total_items_sold k)) as (w & E & G).
      now apply (items_count_line k w).
  - destruct I as [<-|[]]. apply title_line. right. now left.
  - now apply (item_lines_shape k) in I.
  - destruct (revenue_by_city k) as [c|]; [|contradiction].
    apply in_app_or in I. destruct I as [[<-|[]]|I].
    + apply title_line. right. right. now left.
    + now apply (item_lines_shape k) in I.
  - destruct I as [<-|[]]. apply title_line. right. right. right. now left.
  - now apply (item_lines_shape k) in I.
Qed.

(** * The pipeline's properties, claim by claim *)

Lemma combine_snd_combine {A B : Type} (l : list A) (xs : list B) :
  combine l (map snd (combine l xs)) = combine l xs.
Proof.
  revert xs. induction l as [|a l IH]; intros [|x xs]; simpl;
    [reflexivity | reflexivity | reflexivity | now rewrite IH].
Qed.

Lemma relabelled_idempotent (raw : DataFrame) :
  relabelled (relabelled raw) = relabelled raw.
Proof.
  unfold relabelled, set_columns. cbn [columns rows].
  rewrite !map_map.
  assert (E : map (fun c => canon (canon c)) (columns raw) = map canon (columns raw))
    by (apply map_ext; intros c; apply canon_idempotent).
  rewrite E. f_equal. apply map_ext. intros r. apply combine_snd_combine.
Qed.

Module AlikeFacts.
Import PyStr.

Lemma in_all_ascii (c : ascii) : In c all_ascii.
Proof.
  unfold all_ascii. rewrite <- (ascii_nat_embedding c).
  apply in_map, in_seq. pose proof (nat_ascii_bounded c). lia.
Qed.

(** Two characters agree exactly when lower-casing and then putting an
    underscore for a space sends them to the same character. *)
Lemma same_char_spec (x y : ascii) :
  same_char x y
  = Ascii.eqb (space_to_underscore (lower_char x))
              (space_to_underscore (lower_char y)).
Proof.
  assert (T : forallb (fun x => forallb (fun y =>
                Bool.eqb (same_char x y)
                  (Ascii.eqb (space_to_underscore (lower_char x))
                             (space_to_underscore (lower_char y))))
                all_ascii) all_ascii = true) by (vm_compute; reflexivity).
  rewrite forallb_forall in T. specialize (T x (in_all_ascii x)).
  rewrite forallb_forall in T. specialize (T y (in_all_ascii y)).
  now apply Bool.eqb_prop in T.
Qed.

Lemma same_chars_spec (s t : string) :
  same_chars s t = true <-> replace_spaces (lower s) = replace_spaces (lower t).
Proof.
  unfold replace_spaces, lower.
  revert t. induction s as [|x s IH]; intros [|y t];
    cbn [same_chars map_chars];
    try (split; [reflexivity || discriminate | reflexivity || discriminate]).
  rewrite same_char_spec. split.
  - intros H. apply andb_prop in H. destruct H as [C R].
    apply Ascii.eqb_eq in C. apply IH in R. now rewrite C, R.
  - intros E. injection E as C R. apply andb_true_intro. split.
    + now apply Ascii.eqb_eq.
    + now apply IH.
Qed.

Lemma canon_lower_strip (n : string) :
  canon n = replace_spaces (lower (strip n)).
Proof. unfold canon. now rewrite PyStrFacts.lower_strip. Qed.

Lemma alike_canon (n m : string) : alike n m = true <-> canon n = canon m.
Proof. unfold alike. rewrite same_chars_spec, <- !canon_lower_strip. tauto. Qed.

Lemma labels_alike_canon (raw1 raw2 : DataFrame) :
  labels_alike raw1 raw2 ->
  map canon (columns raw1) = map canon (columns raw2).
Proof.
  unfold labels_alike. induction 1 as [|n m l1 l2 A _ IH]; [reflexivity|].
  simpl. apply alike_canon in A. now rewrite A, IH.
Qed.

Lemma relabelled_alike (raw1 raw2 : DataFrame) :
  labels_alike raw1 raw2 -> same_cells raw1 raw2 ->
  relabelled raw1 = relabelled raw2.
Proof.
  intros L C. unfold relabelled, set_columns.
  rewrite (labels_alike_canon _ _ L). f_equal.
  unfold same_cells in C.
  rewrite <- (map_map (map snd) (fun cells => combine (map canon (columns raw2)) cells)).
  rewrite <- (map_map (map snd) (fun cells => combine (map canon (columns raw2)) cells)
                      (rows raw2)).
  now rewrite C.
Qed.

End AlikeFacts.

(** C8.  Canonicalising a column label twice gives the same label as
    canonicalising it once, and two labels have the same canonical form
    exactly when they differ in case, in white space around them and in
    spaces written for underscores only; the canonical form of a label is
    one of these variants of it.  So a frame already under its canonical
    labels, and any frame with the same cells under variants of these
    labels, is cleaned to the same frame and normalised to the same
    transactions as the frame under the labels as they were written.  The
    file with the labels "  DATE", "Total_Items ", "TOTAL COST", "product"
    and " City " is cleaned as the one with "date", "total_items",
    "total_cost", "product" and "city"; "totalitems" is no variant of
    "total_items". *)
Theorem canonical_labels_idempotent :
  (forall c, canon (canon c) = canon c)
  /\ (forall n m, alike n m = true <-> canon n = canon m)
  /\ (forall n, alike (canon n) n = true)
  /\ (forall (P : Pandas) (raw : DataFrame),
        load_and_clean_data (relabelled raw) = load_and_clean_data raw
        /\ normalize (relabelled raw) = normalize raw)
  /\ (forall (P : Pandas) (canonical written : DataFrame),
        labels_alike canonical written ->
        same_cells canonical written ->
        load_and_clean_data written = load_and_clean_data canonical
        /\ normalize written = normalize canonical)
  /\ (canon "  Total Items " = "total_items"
      /\ map canon written_labels = canonical_labels
      /\ labels_alike (labelled_rows canonical_labels)
                      (labelled_rows written_labels)
      /\ @load_and_clean_data stable_pandas (labelled_rows written_labels)
         = @load_and_clean_data stable_pandas (labelled_rows canonical_labels)
      /\ (exists df, @load_and_clean_data stable_pandas
                       (labelled_rows written_labels) = Ok df
                     /\ List.length (rows df) = 2%nat)
      /\ alike "total_items" "totalitems" = false
      /\ canon "totalitems" <> canon "total_items").
Proof.
  split; [exact canon_idempotent|].
  split; [exact AlikeFacts.alike_canon|].
  split; [intros n; apply AlikeFacts.alike_canon, canon_idempotent|].
  split.
  { intros P raw. split.
    - unfold load_and_clean_data. fold (relabelled (relabelled raw)).
      fold (relabelled raw). now rewrite relabelled_idempotent.
    - unfold normalize. now rewrite relabelled_idempotent. }
  split.
  { intros P canonical written L C.
    pose proof (AlikeFacts.relabelled_alike _ _ L C) as E. split.
    - unfold load_and_clean_data. fold (relabelled written).
      fold (relabelled canonical). now rewrite E.
    - unfold normalize. now rewrite E. }
  split; [reflexivity|].
  split; [reflexivity|].
  split; [unfold labels_alike; cbn [columns labelled_rows];
          repeat constructor|].
  split; [vm_compute; reflexivity|].
  split; [eexists; split; [vm_compute; reflexivity | reflexivity]|].
  split; [reflexivity|].
  vm_compute. discriminate.
Qed.

(** C10.  The required columns are found under the canonical labels
    "date", "total_items" and "total_cost" and no other: a frame is
    cleaned only if all three are there, and with the date column present
    a frame without "total_items" (or, that one present, without
    "total_cost") stops with the message of that label whatever its other
    columns are called, as the file with "Items", "Quantity" and "Cost"
    does. *)
Theorem required_labels_are_exact (P : Pandas) (raw : DataFrame) :
  (forall df, load_and_clean_data raw = Ok df -> required_present raw)
  /\ (has_col "date" (relabelled raw) = true ->
      has_col "total_items" (relabelled raw) = false ->
      load_and_clean_data raw
      = Stop "No 'total_items' column found to create quantity.")
  /\ (has_col "date" (relabelled raw) = true ->
      has_col "total_items" (relabelled raw) = true ->
      has_col "total_cost" (relabelled raw) = false ->
      load_and_clean_data raw
      = Stop "No 'total_cost' column found to create revenue.")
  /\ load_and_clean_data other_names
     = Stop "No 'total_items' column found to create quantity.".
Proof.
  split; [|split; [|split]].
  - intros df E. now apply load_and_clean_data_Ok in E.
  - intros Hd Hi. rewrite load_and_clean_data_outcome.
    unfold missing_message. now rewrite Hd, Hi.
  - intros Hd Hi Hc. rewrite load_and_clean_data_outcome.
    unfold missing_message. now rewrite Hd, Hi, Hc.
  - rewrite load_and_clean_data_outcome. reflexivity.
Qed.



(** C3.  On the frame that cleaning returns, the average order value is
    the total revenue divided by the number of transactions when there is
    at least one transaction; without any, it is NaN, and no division is
    evaluated. *)
Theorem avg_order_value_is_total_over_count (P : Pandas)
  (raw df : DataFrame) (k : KPIs) :
  load_and_clean_data raw = Ok df ->
  compute_kpis df = Ok k ->
  (total_transactions k = 0%nat -> avg_order_value k = None)
  /\ ((0 < total_transactions k)%nat ->
      exists q, avg_order_value k = Some q
                /\ (q == total_revenue k
                         / inject_Z (Z.of_nat (total_transactions k)))%Q).
Proof.
  intros L K.
  apply load_and_clean_data_Ok in L. destruct L as [-> _].
  destruct (compute_kpis_Ok _ _ K) as (Hr & Hn & Ha & _).
  destruct (transactions_columns _ _ (cleaned_transactions raw))
    as (_ & _ & Hl & Hc).
  rewrite Ha, Hr, Hn. unfold series_mean, getcol. rewrite Hc, <- Hl.
  split.
  - intros ->. reflexivity.
  - intros Pos. destruct (List.length (rows (cleaned raw))) as [|n] eqn:E;
      [inversion Pos|].
    eexists. split; reflexivity.
Qed.

(** The two-row example has an average of 25. *)
Lemma avg_order_value_two_rows :
  (total_transactions two_rows_kpis = 0%nat ->
   avg_order_value two_rows_kpis = None)
  /\ ((0 < total_transactions two_rows_kpis)%nat ->
      exists q, avg_order_value two_rows_kpis = Some q
                /\ (q == total_revenue two_rows_kpis
                         / inject_Z (Z.of_nat (total_transactions two_rows_kpis)))%Q).
Proof.
  apply (avg_order_value_is_total_over_count stable_pandas two_rows
           (@cleaned stable_pandas two_rows));
    vm_compute; reflexivity.
Defined.

(** C5.  The total revenue is the sum of the revenue field over the
    transactions, the number of transactions is their count, and the
    total of items sold is the sum of the quantity field, each field
    summed on its own.  The two rows of the example give 50, 2, an
    average of 25 and 5 items; a file whose only row has no readable date
    gives 0, 0, NaN and 0 with empty tables, and no error. *)
Theorem scalar_kpis_are_field_sums :
  (forall (P : Pandas) (raw df : DataFrame) (k : KPIs),
      load_and_clean_data raw = Ok df ->
      compute_kpis df = Ok k ->
      (total_revenue k == Qsum (map Spec.revenue (normalize raw)))%Q
      /\ total_transactions k = List.length (normalize raw)
      /\ (total_items_sold k == Qsum (map Spec.quantity (normalize raw)))%Q)
  /\ (exists df, @load_and_clean_data stable_pandas two_rows = Ok df
                 /\ @compute_kpis stable_pandas df = Ok two_rows_kpis)
  /\ (total_revenue two_rows_kpis == 50
      /\ total_transactions two_rows_kpis = 2%nat
      /\ (exists q, avg_order_value two_rows_kpis = Some q /\ q == 25)
      /\ total_items_sold two_rows_kpis == 5)%Q
  /\ (exists df, @load_and_clean_data stable_pandas one_bad_date = Ok df
                 /\ rows df = []
                 /\ @compute_kpis stable_pandas df = Ok empty_kpis).
Proof.
  split; [|split; [|split]].
  - intros P raw df k L K.
    apply load_and_clean_data_Ok in L. destruct L as [-> _].
    destruct (compute_kpis_Ok _ _ K) as (Hr & Hn & _ & Hq & _).
    destruct (transactions_columns _ _ (cleaned_transactions raw))
      as (Er & Eq & El & _).
    rewrite Hr, Hn, Hq, El, <- Er, <- Eq. unfold getcol.
    rewrite !series_sum_Qsum, !map_map. repeat split; reflexivity.
  - eexists. split; vm_compute; reflexivity.
  - repeat split; try reflexivity.
    exists (50 # 2). split; reflexivity.
  - eexists. split; [|split]; vm_compute; reflexivity.
Qed.

(** C1.  A frame with the three required columns and no product column
    makes the script fail at line 68 with a [KeyError], whatever the user
    selects; the guard of line 75 has no counterpart for the product. *)
Theorem missing_product_raises (P : Pandas) (raw : DataFrame) (choice : nat) :
  required_present raw ->
  has_col "product" (relabelled raw) = false ->
  script raw choice = Raise "KeyError: 'product'".
Proof.
  intros R Hp. unfold script.
  rewrite (load_and_clean_data_cleaned raw R). cbn [bind].
  rewrite compute_kpis_no_product; [reflexivity|].
  now rewrite has_col_cleaned_product.
Qed.

(** The file without a product column raises; the file without a city
    column is summarised, without a table of cities. *)
Lemma missing_product_raises_example :
  @script stable_pandas no_product 0 = Raise "KeyError: 'product'".
Proof.
  apply (missing_product_raises stable_pandas no_product 0).
  - unfold required_present. vm_compute. tauto.
  - vm_compute. reflexivity.
Defined.

Lemma missing_city_is_omitted :
  exists d, @script stable_pandas no_city 0 = Ok d
            /\ revenue_by_city (kpis d) = None
            /\ revenue_by_product (kpis d) = [("A", 30%Q)].
Proof. eexists. split; [|split]; vm_compute; reflexivity. Qed.

(** C7.  The monthly revenue table of the cleaned frame, filtered by a
    city or not, has one entry per calendar month that occurs among the
    dates of its rows, in strictly ascending order of period key; the
    value of an entry is the sum of revenue over the rows dated in that
    month.  The period key of a row is the seven characters [YYYY-MM] of
    its year and month: the same for two dates exactly when they fall in
    the same month, and ordered as the months are. *)
Theorem revenue_by_period_is_monthly_sum (P : Pandas) (raw df : DataFrame)
  (sel : cell) :
  load_and_clean_data raw = Ok df ->
  exists m,
    monthly (apply_filter sel df) = Ok m
    /\ StronglySorted key_lt m
    /\ (forall k, In k (map fst m) <->
          exists r t, In r (rows (apply_filter sel df))
                      /\ get "date" r = Ts t /\ period_str t = k)
    /\ (forall k v, In (k, v) m ->
          (v == Qsum (map revenue_of
                        (filter (in_month k) (rows (apply_filter sel df)))))%Q)
    /\ (forall r r' t t',
          In r (rows (apply_filter sel df)) ->
          In r' (rows (apply_filter sel df)) ->
          get "date" r = Ts t -> get "date" r' = Ts t' ->
          get "year_month" r = Txt (period_str t)
          /\ String.length (period_str t) = 7%nat
          /\ (period_str t = period_str t'
              <-> year t = year t' /\ month t = month t')
          /\ (String_as_OT.lt (period_str t) (period_str t')
              <-> month_before t t')).
Proof.
  intros L. apply load_and_clean_data_Ok in L. destruct L as [-> _].
  set (f := apply_filter sel (cleaned raw)).
  assert (C : Forall clean_row (rows f)).
  { apply Forall_forall. intros r I. apply apply_filter_rows in I.
    pose proof (cleaned_rows_clean raw) as F.
    rewrite Forall_forall in F. now apply F. }
  destruct (groupby_sum_ok "year_month" f) as [m M].
  { unfold f. rewrite apply_filter_has_col. apply has_col_cleaned_year_month. }
  { unfold f. rewrite apply_filter_has_col. apply has_col_cleaned_revenue. }
  exists m. rewrite monthly_groupby.
  destruct (groupby_sum_spec _ _ _ M) as (S & K & V).
  rewrite Forall_forall in C.
  split; [exact M|]. split; [exact S|]. split; [|split].
  - intros k. rewrite K. split.
    + intros (r & I & G).
      destruct (clean_row_fields r (C r I)) as (t & _ & _ & D & _ & Y & _).
      rewrite Y in G. simpl in G. injection G as G. eauto.
    + intros (r & t & I & D & E). exists r. split; [exact I|].
      destruct (clean_row_fields r (C r I)) as (t0 & _ & _ & D0 & _ & Y & _).
      rewrite Y. simpl. congruence.
  - intros k v I. rewrite (V k v I). unfold group_total.
    rewrite (filter_ext_Forall (in_group "year_month" k) (in_month k) clean_row);
      [reflexivity | now apply Forall_forall | intros; now apply in_group_year_month].
  - intros r r' t t' I I' D D'.
    destruct (clean_row_fields r (C r I)) as (t0 & _ & _ & D0 & V0 & Y & _).
    destruct (clean_row_fields r' (C r' I')) as (t1 & _ & _ & D1 & V1 & _).
    assert (t0 = t) by congruence. assert (t1 = t') by congruence. subst.
    split; [exact Y|]. split; [reflexivity|]. split.
    + now apply PeriodFacts.period_str_same_month.
    + now apply PeriodOrder.period_str_chronological.
Qed.

(** The monthly table of the two-row example filtered by city X. *)
Lemma revenue_by_period_two_rows :
  exists m,
    monthly (apply_filter (Txt "X") (@cleaned stable_pandas two_rows)) = Ok m
    /\ m = [("2024-01", 30%Q)].
Proof.
  destruct (revenue_by_period_is_monthly_sum stable_pandas two_rows
              (@cleaned stable_pandas two_rows) (Txt "X")
              ltac:(vm_compute; reflexivity)) as (m & M & _).
  exists m. split; [exact M|].
  apply Ok_inj. rewrite <- M. vm_compute. reflexivity.
Defined.

(** C6.  On a file whose canonical labels are pairwise distinct, with a
    product column and with text or nothing in the product and city
    cells, the summary of the cleaned frame is computed, and its table of
    products, like its table of cities when there is a city column, has at
    most five entries, in descending order of summed revenue, each the sum
    of revenue over the rows of its group; a group left out sums to no
    more than any entry.  Entries of equal value come in the order the
    sort of the default kind leaves them. *)
Theorem top_five_tables (P : Pandas) (raw df : DataFrame) :
  distinct_labels raw = true ->
  load_and_clean_data raw = Ok df ->
  text_keys df = true ->
  has_col "product" (relabelled raw) = true ->
  exists k,
    compute_kpis df = Ok k
    /\ top_five_of "product" df (revenue_by_product k)
    /\ (forall c, revenue_by_city k = Some c -> top_five_of "city" df c).
Proof.
  intros _ L _ Hp. apply load_and_clean_data_Ok in L. destruct L as [-> _].
  destruct (compute_kpis_cleaned raw Hp) as [k K]. exists k.
  split; [exact K|].
  destruct (compute_kpis_Ok _ _ K) as (_ & _ & _ & _ & Tp & Tc & _).
  split; [now apply top5_by_top_five|].
  intros c E. destruct (has_col "city" (cleaned raw)).
  - destruct Tc as (c' & Tc & E'). rewrite E in E'. injection E' as <-.
    now apply top5_by_top_five.
  - congruence.
Qed.

(** The tables of the two-row example. *)
Lemma top_five_tables_two_rows :
  exists k,
    @compute_kpis stable_pandas (@cleaned stable_pandas two_rows) = Ok k
    /\ top_five_of "product" (@cleaned stable_pandas two_rows)
                   (revenue_by_product k)
    /\ (forall c, revenue_by_city k = Some c ->
                  top_five_of "city" (@cleaned stable_pandas two_rows) c).
Proof.
  apply (top_five_tables stable_pandas two_rows (@cleaned stable_pandas two_rows));
    vm_compute; reflexivity.
Defined.

(** Eighteen products with the same revenue: the table of products holds
    the first, the second, and then the seventeenth, the sixteenth and the
    fifteenth.  It is the head of what numpy's argsort leaves of the
    eighteen sums, and its equal entries are not in the order of the
    groups. *)
Lemma tied_products_out_of_group_order :
  distinct_labels eighteen_tied_products = true
  /\ exists d g,
       @script numpy_pandas eighteen_tied_products 0 = Ok d
       /\ text_keys (df_clean d) = true
       /\ groupby_sum "product" "revenue" (df_clean d) = Ok g
       /\ map fst g = product_names
       /\ NumPy.nargsort_desc (map snd g)
          = [0; 1; 16; 15; 14; 13; 12; 11; 10; 9; 8; 7; 6; 5; 4; 3; 2; 17]%nat
       /\ revenue_by_product (kpis d)
          = head 5 (take g (NumPy.nargsort_desc (map snd g)))
       /\ map fst (revenue_by_product (kpis d))
          = ["P01"; "P02"; "P17"; "P16"; "P15"]
       /\ Forall (fun e => (snd e == 10)%Q) (revenue_by_product (kpis d))
       /\ ~ ties_in_group_order (revenue_by_product (kpis d)).
Proof.
  split; [reflexivity|].
  eexists. eexists.
  split; [vm_compute; reflexivity|].
  split; [vm_compute; reflexivity|].
  split; [vm_compute; reflexivity|].
  split; [vm_compute; reflexivity|].
  split; [vm_compute; reflexivity|].
  split; [vm_compute; reflexivity|].
  split; [vm_compute; reflexivity|].
  split; [vm_compute; repeat constructor|].
  intros S.
  match type of S with
  | ties_in_group_order ?t =>
      assert (T : t = [("P01", 10%Q); ("P02", 10%Q); ("P17", 10%Q);
                       ("P16", 10%Q); ("P15", 10%Q)])
        by (vm_compute; reflexivity)
  end.
  rewrite T in S. clear T. unfold ties_in_group_order in S.
  apply StronglySorted_inv in S. destruct S as [S _].
  apply StronglySorted_inv in S. destruct S as [S _].
  apply StronglySorted_inv in S. destruct S as [_ F].
  apply Forall_inv in F.
  assert (C : key_lt ("P17", 10%Q) ("P16", 10%Q)) by (apply F; reflexivity).
  vm_compute in C. discriminate C.
Qed.

(** C2.  When a city other than the entry "All" is selected, the monthly
    table and the table of products that the page shows are those of the
    rows whose city is the selected one: each monthly value is the sum of
    revenue over the rows of that city dated in that month.  The four
    scalars and the table of cities that the page shows are those of the
    whole cleaned frame.  Every city of a frame that has a city in each
    row can be selected. *)
Theorem city_filter_recomputes_two_tables (P : Pandas) (raw : DataFrame)
  (x : string) :
  x <> "All" ->
  (forall choice d,
      script raw choice = Ok d -> selected_city d = Txt x -> shows_city P d x)
  /\ (forall df,
        load_and_clean_data raw = Ok df ->
        has_col "product" (relabelled raw) = true ->
        has_col "city" (relabelled raw) = true ->
        forallb is_text (getcol "city" df) = true ->
        In (Txt x) (getcol "city" df) ->
        exists choice d, script raw choice = Ok d /\ selected_city d = Txt x).
Proof.
  intros N. split.
  - intros choice d S Sel.
    destruct (script_Ok raw choice d S) as (L & K & _ & (cs & C & Sc) & F & M & T).
    assert (H : has_col "city" (df_clean d) = true).
    { apply (selected_city_has_col _ cs choice x C); [|exact N].
      now rewrite <- Sc. }
    rewrite Sel, (apply_filter_city _ _ N H) in F.
    unfold shows_city. cbn [shown revenue_by_month revenue_by_product
      total_revenue total_transactions avg_order_value total_items_sold
      revenue_by_city].
    rewrite <- F.
    split; [|split; [exact M|split; [exact T|split]]].
    + intros r. rewrite F. unfold filter_city. cbn [rows].
      rewrite filter_In, py_eq_Txt. reflexivity.
    + intros k v I.
      apply load_and_clean_data_Ok in L. destruct L as [L _].
      assert (Cl : Forall clean_row (rows (df_filtered d))).
      { apply Forall_forall. intros r Ir. rewrite F in Ir.
        unfold filter_city in Ir. cbn [rows] in Ir. apply filter_In in Ir.
        destruct Ir as [Ir _]. rewrite L in Ir.
        pose proof (cleaned_rows_clean raw) as Fc.
        rewrite Forall_forall in Fc. now apply Fc. }
      rewrite monthly_groupby in M.
      destruct (groupby_sum_spec _ _ _ M) as (_ & _ & V).
      rewrite (V k v I). unfold group_total.
      rewrite (filter_ext_Forall (in_group "year_month" k) (in_month k) clean_row);
        [| exact Cl | intros; now apply in_group_year_month].
      rewrite F. unfold filter_city. cbn [rows]. rewrite filter_filter.
      reflexivity.
    + exists (kpis d). repeat split. exact K.
  - intros df L Hp Hc T I.
    apply load_and_clean_data_Ok in L. destruct L as [-> R].
    destruct (city_options_all_text (cleaned raw)) as (cs & C & All_in).
    { now rewrite has_col_cleaned_city. }
    { exact T. }
    destruct (In_nth (All :: cs) (Txt x) All) as (n & _ & E).
    { right. now apply All_in. }
    destruct (script_runs raw n (All :: cs) R Hp C) as (d & S & Sel).
    exists n, d. split; [exact S | congruence].
Qed.

(** City X of the two-row example: the second entry of the select box. *)
Lemma city_filter_two_rows :
  exists d,
    @script stable_pandas two_rows 1 = Ok d
    /\ selected_city d = Txt "X"
    /\ shows_city stable_pandas d "X".
Proof.
  destruct (city_filter_recomputes_two_tables stable_pandas two_rows "X"
              ltac:(discriminate)) as [Shows _].
  eexists. split; [vm_compute; reflexivity|].
  split; [reflexivity|].
  apply (Shows 1%nat); vm_compute; reflexivity.
Defined.

(** With city X selected the page still shows a total revenue of 50,
    while the rows of city X sum to 30. *)
Lemma city_filter_leaves_the_scalars :
  exists d k,
    @script stable_pandas two_rows 1 = Ok d
    /\ selected_city d = Txt "X"
    /\ @compute_kpis stable_pandas (filter_city (Txt "X") (df_clean d)) = Ok k
    /\ (total_revenue (shown d) == 50)%Q
    /\ (total_revenue k == 30)%Q
    /\ shown d <> k.
Proof.
  eexists. eexists. split; [vm_compute; reflexivity|].
  split; [reflexivity|]. split; [vm_compute; reflexivity|].
  split; [reflexivity|]. split; [reflexivity|]. discriminate.
Qed.

(** A city called "All" cannot be told from the entry "All": selecting it
    leaves every row in. *)
Lemma city_called_All_is_not_filtered :
  exists d,
    @script stable_pandas city_called_All 1 = Ok d
    /\ selected_city d = Txt "All"
    /\ List.length (rows (df_filtered d)) = 2%nat
    /\ filtered_revenue_by_month d = [("2024-01", 50%Q)].
Proof. eexists. repeat split; vm_compute; reflexivity. Qed.

(** The summary text of a run is the function [build_kpi_summary_text] of
    its KPI summary alone, the same whatever city is selected.  Each of
    its lines is a section title, an amount written with its integer part
    grouped by thousands and two decimals (an amount of the model is a
    rational number: the infinities of a float are not among them), the
    average of no transaction written "nan", the number of items sold
    grouped by thousands, or the number of transactions, which is written
    in plain digits. *)
Theorem summary_text_shape :
  (forall (P : Pandas) (raw : DataFrame) (c1 c2 : nat) (d1 d2 : Dashboard),
      script raw c1 = Ok d1 -> script raw c2 = Ok d2 ->
      kpi_summary_text d1 = build_kpi_summary_text (kpis d1)
      /\ kpi_summary_text d2 = kpi_summary_text d1)
  /\ (forall k line, In line (summary_lines k) -> line_shape k line)
  /\ (forall q, exists whole d1 d2,
        format_2f q = (sign_of q ++ whole ++ "." ++ String d1 (String d2 ""))%string
        /\ thousands_grouped whole = true
        /\ is_digit d1 = true /\ is_digit d2 = true).
Proof.
  split; [|split].
  - intros P raw c1 c2 d1 d2 S1 S2.
    destruct (script_Ok raw c1 d1 S1) as (L1 & K1 & T1 & _).
    destruct (script_Ok raw c2 d2 S2) as (L2 & K2 & T2 & _).
    split; [exact T1|].
    rewrite T1, T2.
    assert (E : df_clean d1 = df_clean d2) by congruence.
    rewrite E in K1. congruence.
  - exact summary_lines_shape.
  - exact FormatFacts.format_2f_shape.
Qed.

(** C9.  Line 95 writes the number of transactions with a bare [{}]: in
    every summary text the line reads "Total transactions: " and then
    digits only, never a comma.  The items line of the same text (line 97,
    [{:,.0f}]) and the KPI row of the page (line 156, [{:,}]) group their
    digits by thousands; the KPI row shows the very digits of the text,
    grouped.  For a file of 1234 rows the text reads "Total transactions:
    1234", which is not grouped by thousands, where the KPI row reads
    "1,234" and the items line "Total items sold: 3,702". *)
Theorem transactions_count_has_no_separator :
  (forall k : KPIs, exists digits items,
      nth 2 (summary_lines k) ""
      = ("Total transactions: " ++ digits)%string
      /\ all_digits digits = true
      /\ nth 1 (kpi_row k) ("", "") = ("Total Transactions", group3 digits)
      /\ thousands_grouped (group3 digits) = true
      /\ nth 4 (summary_lines k) ""
         = ("Total items sold: " ++ sign_of (total_items_sold k) ++ items)%string
      /\ thousands_grouped items = true)
  /\ @transactions_line stable_pandas (many_rows 1234)
     = "Total transactions: 1234"
  /\ thousands_grouped "1234" = false
  /\ group3 "1234" = "1,234"
  /\ exists d,
       @script stable_pandas (many_rows 1234) 0 = Ok d
       /\ total_transactions (kpis d) = 1234%nat
       /\ nth 1 (kpi_row (kpis d)) ("", "") = ("Total Transactions", "1,234")
       /\ nth 4 (summary_lines (kpis d)) "" = "Total items sold: 3,702".
Proof.
  split.
  { intros k.
    destruct (FormatFacts.format_0f_shape (total_items_sold k)) as (wi & Ei & Gi).
    exists (decimal (Z.of_nat (total_transactions k))), wi.
    split; [reflexivity|].
    split; [apply FormatFacts.decimal_all_digits|].
    split; [reflexivity|].
    split; [apply FormatFacts.group3_decimal_grouped|].
    split; [|exact Gi].
    cbn [summary_lines nth app]. now rewrite Ei. }
  split; [vm_compute; reflexivity|].
  split; [reflexivity|].
  split; [reflexivity|].
  eexists. split; [vm_compute; reflexivity|].
  repeat split; vm_compute; reflexivity.
Qed.

(** * Further properties of the script *)

(** ** Tables of sums *)

Lemma filter_all {A : Type} (f : A -> bool) (l : list A) :
  Forall (fun x => f x = true) l -> filter f l = l.
Proof.
  induction 1 as [|x l H F IH]; simpl; [reflexivity|]. now rewrite H, IH.
Qed.

Lemma key_lt_NoDup (l : list (string * Q)) :
  StronglySorted key_lt l -> NoDup (map fst l).
Proof.
  induction 1 as [|e l S IH F]; simpl; constructor; [|exact IH].
  intros I. apply in_map_iff in I. destruct I as [e' [E I]].
  rewrite Forall_forall in F. specialize (F e' I). unfold key_lt in F.
  rewrite E in F. exact (StrictOrder_Irreflexive (fst e) F).
Qed.

Lemma NoDup_firstn {A : Type} (n : nat) (l : list A) :
  NoDup l -> NoDup (firstn n l).
Proof.
  intros N. revert n. induction N as [|x l X N IH]; intros [|n]; simpl;
    try constructor.
  - intros I. apply X. eapply In_firstn, I.
  - apply IH.
Qed.

(** X2.  A top-five table lists five groups when there are at least five
    and every group otherwise, and no key twice. *)
Theorem top5_by_size (P : Pandas) (key : string) (df : DataFrame)
  (g t : list (string * Q)) :
  groupby_sum key "revenue" df = Ok g ->
  top5_by key df = Ok t ->
  List.length t = Nat.min 5 (List.length g)
  /\ NoDup (map fst t)
  /\ ((List.length g <= 5)%nat -> Permutation t g).
Proof.
  intros G T. unfold top5_by in T. rewrite G in T. cbn [bind] in T.
  apply Ok_inj in T. subst t. unfold head.
  pose proof (sort_values_desc_perm g) as Pm.
  split; [|split].
  - rewrite length_firstn. now rewrite (Permutation_length Pm).
  - rewrite <- firstn_map. apply NoDup_firstn.
    apply (Permutation_NoDup (Permutation_sym (Permutation_map fst Pm))).
    apply key_lt_NoDup. now apply (groupby_sum_spec _ _ _ G).
  - intros L. rewrite firstn_all2; [exact Pm|].
    now rewrite (Permutation_length Pm).
Qed.

(** The two products of the example. *)
Lemma top5_by_size_two_rows :
  List.length [("A", 30%Q); ("B", 20%Q)] = Nat.min 5 2
  /\ NoDup (map fst [("A", 30%Q); ("B", 20%Q)])
  /\ ((2 <= 5)%nat -> Permutation [("A", 30%Q); ("B", 20%Q)] [("A", 30%Q); ("B", 20%Q)]).
Proof.
  apply (top5_by_size stable_pandas "product" (@cleaned stable_pandas two_rows)
           [("A", 30%Q); ("B", 20%Q)] [("A", 30%Q); ("B", 20%Q)]);
    vm_compute; reflexivity.
Defined.

(** ** The select box *)

Lemma texts_of_In_inv (x : string) (l : list cell) :
  In x (texts_of l) -> In (Txt x) l.
Proof.
  unfold texts_of. intros I. apply in_flat_map in I.
  destruct I as [c [I E]]. destruct c; simpl in E; try contradiction.
  destruct E as [<-|[]]. exact I.
Qed.

Lemma unique_from_In (c : cell) (s seen : list cell) :
  In c (unique_from seen s) -> In c s.
Proof.
  revert seen. induction s as [|a s IH]; intros seen; simpl; [trivial|].
  destruct (existsb (same_value a) seen).
  - intros I. right. now apply (IH seen).
  - intros [->|I]; [now left | right; now apply (IH (a :: seen))].
Qed.

Lemma same_value_Txt_refl (x : string) : same_value (Txt x) (Txt x) = true.
Proof. unfold same_value. simpl. now rewrite String.eqb_refl. Qed.

Lemma unique_from_texts_NoDup (s seen : list cell) :
  NoDup (texts_of (unique_from seen s))
  /\ forall x, In x (texts_of (unique_from seen s)) -> ~ In (Txt x) seen.
Proof.
  revert seen. induction s as [|c s IH]; intros seen; simpl.
  - split; [constructor | intros x []].
  - destruct (existsb (same_value c) seen) eqn:E; [apply IH|].
    destruct (IH (c :: seen)) as [N D].
    assert (Dseen : forall x, In x (texts_of (unique_from (c :: seen) s)) ->
                              ~ In (Txt x) seen).
    { intros x I J. apply (D x I). now right. }
    destruct c as [|y|q|t]; simpl; try (split; assumption).
    split.
    + constructor; [|exact N]. intros I. apply (D y I). now left.
    + intros x [<-|I]; [|now apply Dseen].
      intros J.
      assert (existsb (same_value (Txt y)) seen = true).
      { apply existsb_exists. exists (Txt y). split; [exact J|].
        apply same_value_Txt_refl. }
      congruence.
Qed.

Lemma insert_str_sorted (x : string) (l : list string) :
  StronglySorted String_as_OT.lt l -> ~ In x l ->
  StronglySorted String_as_OT.lt (insert_str x l).
Proof.
  induction 1 as [|y l S IH F]; intros N; simpl.
  - constructor; constructor.
  - destruct (String_as_OT.compare x y) eqn:C.
    + apply GroupFacts.compare_Eq in C. subst y. exfalso. apply N. now left.
    + constructor; [now constructor|].
      constructor; [exact C|].
      eapply Forall_impl; [|exact F]. intros z Z.
      eapply GroupFacts.lt_trans; [exact C | exact Z].
    + constructor.
      * apply IH. intros I. apply N. now right.
      * rewrite Forall_forall in *. intros z I.
        apply insert_str_In in I. destruct I as [->|I].
        -- now apply GroupFacts.compare_Gt.
        -- now apply F.
Qed.

Lemma sorted_strings_sorted (l : list string) :
  NoDup l -> StronglySorted String_as_OT.lt (fold_right insert_str [] l).
Proof.
  induction 1 as [|x l X N IH]; simpl; [constructor|].
  apply insert_str_sorted; [exact IH|].
  now rewrite sorted_strings_In.
Qed.

(** X3.  With a city in every row, the select box offers "All" first and
    then the cities of the cleaned frame, each once, in ascending order. *)
Theorem city_options_sorted_distinct (df : DataFrame) :
  has_col "city" df = true ->
  forallb is_text (getcol "city" df) = true ->
  exists cs,
    city_options df = Ok (All :: map Txt cs)
    /\ StronglySorted String_as_OT.lt cs
    /\ forall x, In x cs <-> In (Txt x) (getcol "city" df).
Proof.
  intros H T. unfold city_options, py_sorted. rewrite H.
  unfold unique. rewrite (unique_from_text _ [] T). cbn [bind].
  eexists. split; [reflexivity|]. split.
  - apply sorted_strings_sorted, unique_from_texts_NoDup.
  - intros x. rewrite sorted_strings_In. split.
    + intros I. apply texts_of_In_inv in I. now apply unique_from_In in I.
    + intros I. apply texts_of_In.
      destruct (unique_from_Txt x _ [] I) as [[]|I']. exact I'.
Qed.

(** The options of the two-row example. *)
Lemma city_options_two_rows :
  exists cs,
    city_options (@cleaned stable_pandas two_rows) = Ok (All :: map Txt cs)
    /\ StronglySorted String_as_OT.lt cs
    /\ forall x, In x cs <->
                 In (Txt x) (getcol "city" (@cleaned stable_pandas two_rows)).
Proof.
  apply (city_options_sorted_distinct (@cleaned stable_pandas two_rows));
    vm_compute; reflexivity.
Defined.

Lemma same_value_nontext (c a : cell) :
  same_value c a = true -> is_text c = false -> is_text a = false.
Proof.
  destruct c, a; simpl; intros; try reflexivity; discriminate.
Qed.

Lemma unique_from_nontext (c : cell) (s seen : list cell) :
  In c s -> is_text c = false ->
  existsb (same_value c) seen = true
  \/ exists c', In c' (unique_from seen s) /\ is_text c' = false.
Proof.
  intros I T. revert seen I.
  induction s as [|a s IH]; intros seen I; [contradiction|]. simpl.
  destruct (existsb (same_value a) seen) eqn:E.
  - destruct I as [->|I]; [now left | now apply IH].
  - destruct I as [->|I].
    + right. exists c. split; [now left | exact T].
    + destruct (IH (a :: seen) I) as [X|(c' & I' & T')].
      * simpl in X. apply orb_prop in X. destruct X as [X|X]; [|now left].
        right. exists a. split; [now left|].
        now apply (same_value_nontext c a).
      * right. exists c'. split; [now right | exact T'].
Qed.

Lemma two_distinct_length {A : Type} (a b : A) (l : list A) :
  In a l -> In b l -> a <> b -> (List.length l <=? 1)%nat = false.
Proof.
  destruct l as [|y [|z l]]; simpl; try reflexivity.
  - contradiction.
  - intros [<-|[]] [<-|[]] N. congruence.
Qed.

Lemma city_options_mixed (df : DataFrame) (x : string) :
  has_col "city" df = true ->
  In (Txt x) (getcol "city" df) -> In NaN (getcol "city" df) ->
  exists e, city_options df = Raise e.
Proof.
  intros H Ix Inan.
  unfold city_options, py_sorted. rewrite H.
  set (u := unique (getcol "city" df)).
  assert (Ux : In (Txt x) u).
  { destruct (unique_from_Txt x _ [] Ix) as [[]|I]. exact I. }
  destruct (unique_from_nontext NaN _ [] Inan eq_refl) as [X|(c' & Ic & Tc)];
    [discriminate X|].
  fold u in Ic.
  assert (F : forallb is_text u = false).
  { destruct (forallb is_text u) eqn:F; [|reflexivity].
    rewrite forallb_forall in F. specialize (F c' Ic). congruence. }
  rewrite F.
  rewrite (two_distinct_length (Txt x) c' u Ux Ic).
  - cbn [bind]. eauto.
  - intros <-. discriminate Tc.
Qed.

(** X4.  When the cleaned frame has a row with a city and a row without
    one, the script fails for every selection: the options of the select
    box cannot be sorted (line 127), text and NaN do not compare. *)
Theorem missing_city_among_cities_raises (P : Pandas) (raw : DataFrame)
  (choice : nat) (x : string) :
  required_present raw ->
  has_col "city" (relabelled raw) = true ->
  In (Txt x) (getcol "city" (cleaned raw)) ->
  In NaN (getcol "city" (cleaned raw)) ->
  exists e, script raw choice = Raise e.
Proof.
  intros R Hc Ix Inan. unfold script.
  rewrite (load_and_clean_data_cleaned raw R). cbn [bind].
  destruct (has_col "product" (relabelled raw)) eqn:Hp.
  - destruct (compute_kpis_cleaned raw Hp) as [k ->]. cbn [bind].
    destruct (city_options_mixed (cleaned raw) x) as [e ->];
      [now rewrite has_col_cleaned_city | exact Ix | exact Inan |].
    cbn [bind]. eauto.
  - rewrite compute_kpis_no_product by now rewrite has_col_cleaned_product.
    cbn [bind]. eauto.
Qed.

(** The file whose second row has no city. *)
Lemma missing_city_among_cities_example :
  exists e, @script stable_pandas one_city_missing 0 = Raise e.
Proof.
  apply (missing_city_among_cities_raises stable_pandas one_city_missing 0 "X").
  - unfold required_present. vm_compute. tauto.
  - vm_compute. reflexivity.
  - vm_compute. tauto.
  - vm_compute. tauto.
Defined.

(** ** The filter *)

Lemma city_options_head (df : DataFrame) (cities : list cell) :
  city_options df = Ok cities ->
  (exists cs, cities = All :: cs)
  /\ (has_col "city" df = false -> cities = [All]).
Proof.
  unfold city_options. destruct (has_col "city" df).
  - destruct (py_sorted _) as [cs| |]; try discriminate. cbn [bind].
    intros E. apply Ok_inj in E. subst cities. split; [eauto | discriminate].
  - intros E. apply Ok_inj in E. subst cities. split; eauto.
Qed.

Lemma apply_filter_All (df : DataFrame) : apply_filter All df = df.
Proof. reflexivity. Qed.

(** X5.  With the first entry of the select box, or without a city
    column, nothing is filtered: the selection is "All", the filtered
    frame is the cleaned frame, and the two filtered tables are the
    tables of the summary. *)
Theorem no_filter_shows_the_summary_tables (P : Pandas) (raw : DataFrame)
  (choice : nat) (d : Dashboard) :
  script raw choice = Ok d ->
  choice = 0%nat \/ has_col "city" (relabelled raw) = false ->
  selected_city d = All
  /\ df_filtered d = df_clean d
  /\ filtered_revenue_by_month d = revenue_by_month (kpis d)
  /\ filtered_revenue_by_product d = revenue_by_product (kpis d).
Proof.
  intros S C.
  destruct (script_Ok raw choice d S) as (L & K & _ & (cs & O & Sel) & F & M & T).
  destruct (compute_kpis_Ok _ _ K) as (_ & _ & _ & _ & Tk & _ & Mk).
  assert (A : selected_city d = All).
  { rewrite Sel. destruct (city_options_head _ _ O) as [[cs' E] N].
    destruct C as [->|C].
    - now rewrite E.
    - apply load_and_clean_data_Ok in L. destruct L as [L _].
      rewrite N by (rewrite L, has_col_cleaned_city; exact C).
      destruct choice as [|[|n]]; reflexivity. }
  rewrite A, apply_filter_All in F. rewrite F in M, T.
  repeat split; [exact A | exact F | |].
  - apply Ok_inj. now rewrite <- M, <- Mk.
  - apply Ok_inj. now rewrite <- T, <- Tk.
Qed.

(** The two-row example with the entry "All". *)
Lemma no_filter_two_rows :
  exists d,
    @script stable_pandas two_rows 0 = Ok d
    /\ selected_city d = All
    /\ df_filtered d = df_clean d
    /\ filtered_revenue_by_month d = revenue_by_month (kpis d)
    /\ filtered_revenue_by_product d = revenue_by_product (kpis d).
Proof.
  eexists. split; [vm_compute; reflexivity|].
  apply (no_filter_shows_the_summary_tables stable_pandas two_rows 0);
    [vm_compute; reflexivity | now left].
Defined.

(** X6.  The script reaches the layout, for every selection, as soon as
    the canonical labels of the file are pairwise distinct, the file has
    the three required columns and a product column, and its city column
    is absent or has a city in every cleaned row. *)
Theorem script_reaches_the_layout (P : Pandas) (raw : DataFrame) (choice : nat) :
  distinct_labels raw = true ->
  required_present raw ->
  has_col "product" (relabelled raw) = true ->
  has_col "city" (relabelled raw) = false
  \/ forallb is_text (getcol "city" (cleaned raw)) = true ->
  exists d, script raw choice = Ok d /\ df_clean d = cleaned raw.
Proof.
  intros _ R Hp C.
  assert (O : exists cities, city_options (cleaned raw) = Ok cities).
  { destruct (has_col "city" (relabelled raw)) eqn:Hc.
    - destruct C as [C|C]; [discriminate|].
      destruct (city_options_all_text (cleaned raw)) as (cs & O & _);
        [now rewrite has_col_cleaned_city | exact C | eauto].
    - exists [All]. apply city_options_no_city.
      now rewrite has_col_cleaned_city. }
  destruct O as [cities O].
  destruct (script_runs raw choice cities R Hp O) as (d & S & _).
  exists d. split; [exact S|].
  destruct (script_Ok raw choice d S) as (L & _).
  apply load_and_clean_data_Ok in L. now destruct L.
Qed.

(** The file without a city column. *)
Lemma script_reaches_the_layout_no_city :
  exists d, @script stable_pandas no_city 3 = Ok d
            /\ df_clean d = @cleaned stable_pandas no_city.
Proof.
  apply (script_reaches_the_layout stable_pandas no_city 3).
  - reflexivity.
  - unfold required_present. vm_compute. tauto.
  - vm_compute. reflexivity.
  - left. vm_compute. reflexivity.
Defined.

Lemma apply_filter_is_filter (sel : cell) (df : DataFrame) :
  exists p, rows (apply_filter sel df) = filter p (rows df).
Proof.
  unfold apply_filter. destruct (_ && _).
  - eexists. reflexivity.
  - exists (fun _ => true). symmetry. apply filter_all.
    apply Forall_forall. reflexivity.
Qed.

Lemma Qsum_nonneg (l : list Q) : Forall (fun q => 0 <= q)%Q l -> (0 <= Qsum l)%Q.
Proof.
  induction 1 as [|q l H F IH]; simpl; [apply Qle_refl|].
  rewrite <- (Qplus_0_l 0). now apply Qplus_le_compat.
Qed.

Lemma Qsum_filter_le (f : Row -> Q) (p : Row -> bool) (l : list Row) :
  Forall (fun r => 0 <= f r)%Q l ->
  (Qsum (map f (filter p l)) <= Qsum (map f l))%Q.
Proof.
  induction 1 as [|r l H F IH]; simpl; [apply Qle_refl|].
  destruct (p r); simpl.
  - apply Qplus_le_compat; [apply Qle_refl | exact IH].
  - rewrite <- (Qplus_0_l (Qsum (map f (filter p l)))).
    now apply Qplus_le_compat.
Qed.

Lemma filter_comm {A : Type} (f g : A -> bool) (l : list A) :
  filter f (filter g l) = filter g (filter f l).
Proof.
  rewrite !filter_filter. apply filter_ext. intros x. apply andb_comm.
Qed.

(** X7.  A filter only removes rows: the filtered frame has no more rows
    than the cleaned frame, every month of the filtered monthly table is a
    month of the monthly table of the summary, and when no revenue is
    negative no filtered monthly value exceeds the value of its month in
    the summary. *)
Theorem filter_only_removes (P : Pandas) (raw : DataFrame) (choice : nat)
  (d : Dashboard) :
  script raw choice = Ok d ->
  (List.length (rows (df_filtered d)) <= List.length (rows (df_clean d)))%nat
  /\ (forall k, In k (map fst (filtered_revenue_by_month d)) ->
                In k (map fst (revenue_by_month (kpis d))))
  /\ (Forall (fun r => 0 <= revenue_of r)%Q (rows (df_clean d)) ->
      forall k v w,
        In (k, v) (filtered_revenue_by_month d) ->
        In (k, w) (revenue_by_month (kpis d)) -> (v <= w)%Q).
Proof.
  intros S.
  destruct (script_Ok raw choice d S) as (_ & K & _ & _ & F & M & _).
  destruct (compute_kpis_Ok _ _ K) as (_ & _ & _ & _ & _ & _ & Mk).
  rewrite monthly_groupby in M, Mk.
  destruct (groupby_sum_spec _ _ _ M) as (_ & Kf & Vf).
  destruct (groupby_sum_spec _ _ _ Mk) as (_ & Kk & Vk).
  destruct (apply_filter_is_filter (selected_city d) (df_clean d)) as [p E].
  rewrite <- F in E.
  split; [|split].
  - rewrite E. apply filter_length_le.
  - intros k I. apply Kk. apply Kf in I. destruct I as (r & I & G).
    exists r. split; [|exact G]. rewrite E in I. now apply filter_In in I.
  - intros N k v w Iv Iw.
    rewrite (Vf k v Iv), (Vk k w Iw). unfold group_total.
    rewrite E, filter_comm.
    apply Qsum_filter_le.
    apply Forall_forall. intros r I. apply filter_In in I.
    rewrite Forall_forall in N. now apply N.
Qed.

(** The two-row example with city X selected. *)
Lemma filter_only_removes_two_rows :
  exists d,
    @script stable_pandas two_rows 1 = Ok d
    /\ (List.length (rows (df_filtered d)) <= List.length (rows (df_clean d)))%nat
    /\ (forall k, In k (map fst (filtered_revenue_by_month d)) ->
                  In k (map fst (revenue_by_month (kpis d))))
    /\ (Forall (fun r => 0 <= revenue_of r)%Q (rows (df_clean d)) ->
        forall k v w,
          In (k, v) (filtered_revenue_by_month d) ->
          In (k, w) (revenue_by_month (kpis d)) -> (v <= w)%Q).
Proof.
  eexists. split; [vm_compute; reflexivity|].
  apply (filter_only_removes stable_pandas two_rows 1).
  vm_compute. reflexivity.
Defined.

(** ** Cleaning *)

Lemma normalize_rows_length (rs : list Row) (ds : list (option Timestamp))
  (qs cs : list (option Q)) :
  List.length ds = List.length rs -> List.length qs = List.length rs ->
  List.length cs = List.length rs ->
  (List.length (Spec.normalize_rows rs ds qs cs) <= List.length rs)%nat
  /\ (List.length (Spec.normalize_rows rs ds qs cs) = List.length rs
      <-> forallb parsed ds && forallb parsed qs && forallb parsed cs = true).
Proof.
  revert ds qs cs.
  induction rs as [|r rs IH]; intros [|d ds] [|q qs] [|c cs] Ld Lq Lc;
    try discriminate.
  - split; [apply Nat.le_refl | split; reflexivity].
  - injection Ld as Ld. injection Lq as Lq. injection Lc as Lc.
    destruct (IH ds qs cs Ld Lq Lc) as [Le Eq].
    destruct d as [d|], q as [q|], c as [c|]; simpl;
      rewrite ?andb_false_r; simpl;
      try (split; [lia | split; [intros; lia | discriminate]]).
    split; [lia|]. rewrite <- Eq. split; lia.
Qed.

Lemma rows_relabelled_length (raw : DataFrame) :
  List.length (rows (relabelled raw)) = List.length (rows raw).
Proof. unfold relabelled, set_columns. cbn [rows]. apply length_map. Qed.

(** X8.  Cleaning only drops rows: the cleaned frame has no more rows than
    the file, and it has as many exactly when every date, item count and
    cost of the file parsed. *)
Theorem cleaning_only_drops_rows (P : Pandas) (raw df : DataFrame) :
  load_and_clean_data raw = Ok df ->
  (List.length (rows df) <= List.length (rows raw))%nat
  /\ (List.length (rows df) = List.length (rows raw) <-> all_parsed raw = true).
Proof.
  intros L. apply load_and_clean_data_Ok in L. destruct L as [-> _].
  destruct (transactions_columns _ _ (cleaned_transactions raw))
    as (_ & _ & El & _).
  rewrite El, <- rows_relabelled_length. unfold normalize, all_parsed.
  apply normalize_rows_length; unfold getcol;
    now rewrite ?to_datetime_length, ?to_numeric_length, length_map.
Qed.

(** The file whose only row has no readable date loses that row. *)
Lemma cleaning_only_drops_rows_bad_date :
  (List.length (rows (@cleaned stable_pandas one_bad_date))
   <= List.length (rows one_bad_date))%nat
  /\ (List.length (rows (@cleaned stable_pandas one_bad_date))
      = List.length (rows one_bad_date)
      <-> @all_parsed stable_pandas one_bad_date = true).
Proof.
  apply (cleaning_only_drops_rows stable_pandas one_bad_date).
  vm_compute. reflexivity.
Defined.

Lemma rows_cleaned `{P : Pandas} (raw : DataFrame) :
  rows (cleaned raw)
  = map with_year_month (filter complete (rows (converted raw))).
Proof.
  unfold cleaned, add_year_month. rewrite rows_setcol.
  unfold getcol. rewrite map_map.
  rewrite (set_all_rowwise "year_month" (fun r => to_period_M_str (get "date" r))).
  reflexivity.
Qed.

(** One row after the five assignments of lines 27-45. *)
Definition assigned (r : Row) (d q c : cell) : Row :=
  set "revenue" c (set "quantity" q (set "total_cost" c
    (set "total_items" q (set "date" d r)))).

Lemma set_all_assigned (rs : list Row) (ds qs cs : list cell) :
  List.length ds = List.length rs -> List.length qs = List.length rs ->
  List.length cs = List.length rs ->
  Forall (fun r' => exists r d q c, In r rs /\ r' = assigned r d q c)
    (set_all "revenue" cs
       (set_all "quantity" qs
          (set_all "total_cost" cs
             (set_all "total_items" qs (set_all "date" ds rs))))).
Proof.
  revert ds qs cs.
  induction rs as [|r rs IH]; intros [|d ds] [|q qs] [|c cs] Ld Lq Lc;
    try discriminate; [constructor|].
  rewrite !set_all_cons. constructor.
  - exists r, d, q, c. split; [now left | reflexivity].
  - injection Ld as Ld. injection Lq as Lq. injection Lc as Lc.
    eapply Forall_impl; [|exact (IH ds qs cs Ld Lq Lc)].
    intros r' (r0 & d0 & q0 & c0 & I & E). exists r0, d0, q0, c0.
    split; [now right | exact E].
Qed.

Lemma converted_rows_assigned `{P : Pandas} (raw : DataFrame) :
  Forall (fun r' => exists r d q c,
            In r (rows (relabelled raw)) /\ r' = assigned r d q c)
         (rows (converted raw)).
Proof.
  unfold converted. rewrite !rows_setcol.
  apply set_all_assigned.
  - apply date_cells_length.
  - apply items_cells_length.
  - apply cost_cells_length.
Qed.

Ltac read_written :=
  repeat (rewrite get_set_same || rewrite get_set_other by reflexivity).

Lemma get_assigned_other (col : string) (r : Row) (d q c : cell) :
  written_by_cleaning col = false ->
  get col (with_year_month (assigned r d q c)) = get col r.
Proof.
  unfold written_by_cleaning. cbn [existsb]. intros W.
  repeat (apply orb_false_elim in W; destruct W as [? W]).
  unfold with_year_month, assigned.
  now repeat (rewrite get_set_other by assumption).
Qed.

(** X9.  Cleaning keeps every column of the file and adds "quantity",
    "revenue" and "year_month".  In every cleaned row the quantity is the
    item count, the revenue is the cost and the period key is that of the
    date, whatever the file held under those three labels; the cells of
    the columns that cleaning does not write are those of a row of the
    file. *)
Theorem cleaning_writes_derived_columns (P : Pandas) (raw df : DataFrame) :
  load_and_clean_data raw = Ok df ->
  (forall col, has_col col df
               = has_col col (relabelled raw)
                 || String.eqb col "quantity" || String.eqb col "revenue"
                 || String.eqb col "year_month")
  /\ (forall r', In r' (rows df) ->
        get "quantity" r' = get "total_items" r'
        /\ get "revenue" r' = get "total_cost" r'
        /\ get "year_month" r' = to_period_M_str (get "date" r')
        /\ exists r, In r (rows (relabelled raw))
                     /\ forall col, written_by_cleaning col = false ->
                                    get col r' = get col r).
Proof.
  intros L. apply load_and_clean_data_Ok in L. destruct L as [-> R].
  apply required_present_has_col in R. destruct R as (Hd & Hi & Hc).
  split.
  - intros col. rewrite has_col_cleaned.
    destruct (String.eqb col "date") eqn:E1.
    { apply String.eqb_eq in E1. subst col. now rewrite Hd. }
    destruct (String.eqb col "total_items") eqn:E2.
    { apply String.eqb_eq in E2. subst col. now rewrite Hi. }
    destruct (String.eqb col "total_cost") eqn:E3.
    { apply String.eqb_eq in E3. subst col. now rewrite Hc. }
    now rewrite !orb_false_r.
  - intros r' I. rewrite rows_cleaned in I.
    apply in_map_iff in I. destruct I as (r1 & <- & I).
    apply filter_In in I. destruct I as [I _].
    pose proof (converted_rows_assigned raw) as F.
    rewrite Forall_forall in F.
    destruct (F r1 I) as (r & d & q & c & Ir & ->).
    split; [|split; [|split]].
    + unfold with_year_month, assigned. now read_written.
    + unfold with_year_month, assigned. now read_written.
    + unfold with_year_month, assigned. now read_written.
    + exists r. split; [exact Ir|]. intros col W.
      now apply get_assigned_other.
Qed.

(** In the file with a column "Quantity" of its own, the quantity of the
    cleaned row is the item count 3, not the 99 of the file. *)
Lemma cleaning_overwrites_quantity :
  exists r',
    rows (@cleaned stable_pandas own_quantity) = [r']
    /\ get "quantity" r' = Num 3
    /\ get "quantity" r' = get "total_items" r'
    /\ get "revenue" r' = get "total_cost" r'
    /\ get "year_month" r' = to_period_M_str (get "date" r').
Proof.
  eexists. split; [vm_compute; reflexivity|].
  split; [reflexivity|].
  destruct (cleaning_writes_derived_columns stable_pandas own_quantity
              (@cleaned stable_pandas own_quantity)
              ltac:(vm_compute; reflexivity)) as [_ H].
  destruct (H _ (or_introl eq_refl)) as (Hq & Hr & Hy & _).
  repeat split; assumption.
Defined.

(** ** Canonical labels *)

Module CanonFacts.
Import PyStr PyStrFacts.

Lemma map_chars_append (f : ascii -> ascii) (a b : string) :
  map_chars f (a ++ b) = (map_chars f a ++ map_chars f b)%string.
Proof. induction a as [|c a IH]; simpl; [reflexivity | now rewrite IH]. Qed.

Lemma blank_lower (a : string) : blank a = true -> blank (lower a) = true.
Proof.
  unfold blank. induction a as [|c a IH]; simpl; [reflexivity|].
  rewrite is_space_lower_char. intros H. apply andb_prop in H.
  destruct H as [-> H]. now apply IH.
Qed.

Lemma lstrip_blank_append (a s : string) :
  blank a = true -> lstrip (a ++ s) = lstrip s.
Proof.
  unfold blank. induction a as [|c a IH]; simpl; [reflexivity|].
  intros H. apply andb_prop in H. destruct H as [-> H]. now apply IH.
Qed.

Lemma rstrip_blank (b : string) : blank b = true -> rstrip b = EmptyString.
Proof.
  unfold blank. induction b as [|c b IH]; simpl; [reflexivity|].
  intros H. apply andb_prop in H. destruct H as [-> H]. now rewrite IH.
Qed.

Lemma rstrip_append_blank (s b : string) :
  blank b = true -> rstrip (s ++ b) = rstrip s.
Proof.
  intros B. induction s as [|c s IH]; simpl.
  - now apply rstrip_blank.
  - now rewrite IH.
Qed.

Lemma lstrip_append (s b : string) :
  lstrip s <> EmptyString -> lstrip (s ++ b) = (lstrip s ++ b)%string.
Proof.
  induction s as [|c s IH]; simpl; [congruence|].
  destruct (is_space c); [exact IH | reflexivity].
Qed.

Lemma lstrip_empty_blank (s : string) :
  lstrip s = EmptyString -> blank s = true.
Proof.
  unfold blank. induction s as [|c s IH]; simpl; [reflexivity|].
  destruct (is_space c); [exact IH | discriminate].
Qed.

Lemma strip_surrounded (a s b : string) :
  blank a = true -> blank b = true -> strip (a ++ s ++ b) = strip s.
Proof.
  intros A B. unfold strip. rewrite (lstrip_blank_append a _ A).
  destruct (lstrip s) as [|c t] eqn:E.
  - assert (Bs : blank s = true) by now apply lstrip_empty_blank.
    rewrite (lstrip_blank_append s b Bs).
    assert (Lb : blank (lstrip b) = true).
    { clear -B. unfold blank in *. induction b as [|c b IH]; simpl; [reflexivity|].
      simpl in B. apply andb_prop in B. destruct B as [-> B]. now apply IH. }
    now rewrite (rstrip_blank _ Lb).
  - rewrite lstrip_append by (rewrite E; discriminate).
    rewrite E. now apply rstrip_append_blank.
Qed.

Lemma every_char_map (p : ascii -> bool) (f : ascii -> ascii) (s : string) :
  (forall c, p (f c) = true) -> every_char p (map_chars f s) = true.
Proof.
  intros H. induction s as [|c s IH]; simpl; [reflexivity|]. now rewrite H, IH.
Qed.

Lemma every_char_lstrip (p : ascii -> bool) (s : string) :
  every_char p s = true -> every_char p (lstrip s) = true.
Proof.
  induction s as [|c s IH]; simpl; [reflexivity|]. intros H.
  destruct (is_space c); [|exact H].
  apply andb_prop in H. now apply IH.
Qed.

Lemma every_char_rstrip (p : ascii -> bool) (s : string) :
  every_char p s = true -> every_char p (rstrip s) = true.
Proof.
  induction s as [|c s IH]; simpl; [reflexivity|]. intros H.
  apply andb_prop in H. destruct H as [Hc Hs]. specialize (IH Hs).
  destruct (rstrip s) as [|c' r].
  - destruct (is_space c); simpl; [reflexivity | now rewrite Hc].
  - simpl in *. now rewrite Hc, IH.
Qed.

Lemma not_upper_lower_char (c : ascii) : is_upper (lower_char c) = false.
Proof.
  unfold is_upper. rewrite lower_char_idem. now rewrite Ascii.eqb_refl.
Qed.

Lemma not_upper_underscored (c : ascii) :
  is_upper c = false -> is_upper (space_to_underscore c) = false.
Proof.
  destruct c as [[] [] [] [] [] [] [] []]; (reflexivity || discriminate).
Qed.

Lemma every_char_map_impl (p q : ascii -> bool) (f : ascii -> ascii) (s : string) :
  (forall c, p c = true -> q (f c) = true) ->
  every_char p s = true -> every_char q (map_chars f s) = true.
Proof.
  intros H. induction s as [|c s IH]; simpl; [reflexivity|]. intros E.
  apply andb_prop in E. destruct E as [Ec Es]. now rewrite (H c Ec), IH.
Qed.

End CanonFacts.

(** X10.  White space around a column label does not matter, nor does the
    case of its letters: a label written between blanks canonicalises as
    the label itself, and as its lower-case form.  A canonical label has
    no space, no upper-case letter and no white space at either end. *)
Theorem canon_ignores_case_and_blanks (a s b : string) :
  blank a = true -> blank b = true ->
  canon (a ++ s ++ b) = canon s
  /\ canon (PyStr.lower s) = canon s
  /\ every_char (fun c => negb (Ascii.eqb c " ")) (canon s) = true
  /\ every_char (fun c => negb (is_upper c)) (canon s) = true
  /\ PyStr.strip (canon s) = canon s.
Proof.
  intros A B. unfold canon. repeat split.
  - unfold PyStr.lower. rewrite !CanonFacts.map_chars_append.
    fold (PyStr.lower a) (PyStr.lower s) (PyStr.lower b).
    rewrite CanonFacts.strip_surrounded;
      [reflexivity | now apply CanonFacts.blank_lower
       | now apply CanonFacts.blank_lower].
  - now rewrite PyStrFacts.lower_idem.
  - apply CanonFacts.every_char_map. intros c.
    destruct c as [[] [] [] [] [] [] [] []]; reflexivity.
  - apply (CanonFacts.every_char_map_impl (fun c => negb (is_upper c))).
    + intros c H. apply negb_true_iff in H. apply negb_true_iff.
      now apply CanonFacts.not_upper_underscored.
    + unfold PyStr.strip.
      apply CanonFacts.every_char_rstrip, CanonFacts.every_char_lstrip.
      apply CanonFacts.every_char_map. intros c.
      now rewrite CanonFacts.not_upper_lower_char.
  - apply PyStrFacts.strip_replace_strip.
Qed.

(** The label "  Total Items " of a file. *)
Lemma canon_total_items :
  canon ("  " ++ "Total Items" ++ " ") = canon "Total Items"
  /\ canon (PyStr.lower "Total Items") = canon "Total Items"
  /\ every_char (fun c => negb (Ascii.eqb c " ")) (canon "Total Items") = true
  /\ every_char (fun c => negb (is_upper c)) (canon "Total Items") = true
  /\ PyStr.strip (canon "Total Items") = canon "Total Items".
Proof.
  apply (canon_ignores_case_and_blanks "  " "Total Items" " "); reflexivity.
Defined.

(** ** The KPI row *)

Module RowFacts.

Definition not_comma (c : ascii) : bool := negb (Ascii.eqb c ",").

Lemma filter_group3_rev (n : nat) (l : list ascii) :
  (List.length l <= n)%nat -> forallb not_comma l = true ->
  filter not_comma (group3_rev l) = l.
Proof.
  revert l. induction n as [|n IH]; intros l L D.
  - destruct l; [reflexivity | simpl in L; lia].
  - destruct l as [|a [|b [|c [|d more]]]];
      try (simpl in *; repeat (apply andb_prop in D; destruct D as [-> D]);
           reflexivity).
    change (group3_rev (a :: b :: c :: d :: more))
      with (a :: b :: c :: ","%char :: group3_rev (d :: more)).
    cbn [forallb] in D.
    apply andb_prop in D. destruct D as [Da D].
    apply andb_prop in D. destruct D as [Db D].
    apply andb_prop in D. destruct D as [Dc D].
    cbn [filter]. rewrite Da, Db, Dc.
    change (not_comma ",") with false. cbv iota.
    rewrite IH; [reflexivity | simpl in *; lia | exact D].
Qed.

Lemma filter_rev {A : Type} (f : A -> bool) (l : list A) :
  filter f (rev l) = rev (filter f l).
Proof.
  induction l as [|x l IH]; simpl; [reflexivity|].
  rewrite filter_app, IH. simpl. destruct (f x); simpl;
    [reflexivity | now rewrite app_nil_r].
Qed.

Lemma digit_not_comma (c : ascii) : is_digit c = true -> not_comma c = true.
Proof.
  destruct c as [[] [] [] [] [] [] [] []]; (reflexivity || discriminate).
Qed.

Lemma remove_commas_group3 (s : string) :
  all_digits s = true -> remove_commas (group3 s) = s.
Proof.
  intros D. unfold remove_commas, group3.
  rewrite list_ascii_of_string_of_list_ascii.
  fold not_comma. rewrite filter_rev.
  rewrite (filter_group3_rev (List.length (rev (list_ascii_of_string s)))).
  - now rewrite rev_involutive, string_of_list_ascii_of_string.
  - lia.
  - rewrite FormatFacts.forallb_rev. unfold all_digits in D.
    rewrite forallb_forall in *. intros c I. apply digit_not_comma. now apply D.
Qed.

End RowFacts.

(** X11.  The KPI row shows the number of transactions grouped by
    thousands; without its commas it is the number that the summary text
    reports in plain digits.  The total revenue and the number of items
    are shown without decimals, grouped by thousands. *)
Theorem kpi_row_groups_thousands (k : KPIs) :
  exists revenue transactions average items,
    kpi_row k = [("Total Revenue", ("$" ++ sign_of (total_revenue k) ++ revenue)%string);
                 ("Total Transactions", transactions);
                 ("Avg Order Value", average);
                 ("Total Items Sold", (sign_of (total_items_sold k) ++ items)%string)]
    /\ thousands_grouped revenue = true
    /\ thousands_grouped transactions = true
    /\ thousands_grouped items = true
    /\ nth 2 (summary_lines k) ""
       = ("Total transactions: " ++ remove_commas transactions)%string
    /\ (avg_order_value k = None -> average = "$nan").
Proof.
  destruct (FormatFacts.format_0f_shape (total_revenue k)) as (wr & Er & Gr).
  destruct (FormatFacts.format_0f_shape (total_items_sold k)) as (wi & Ei & Gi).
  exists wr, (group3 (decimal (Z.of_nat (total_transactions k)))),
    ("$" ++ format_float_2f (avg_order_value k))%string, wi.
  split; [unfold kpi_row; now rewrite Er, Ei|].
  split; [exact Gr|].
  split; [apply FormatFacts.group3_decimal_grouped|].
  split; [exact Gi|].
  split.
  - rewrite RowFacts.remove_commas_group3
      by apply FormatFacts.decimal_all_digits.
    reflexivity.
  - intros ->. reflexivity.
Qed.
